(** * daily_stock_analysis: the US-equity fetcher and the market overview

    A shallow embedding of
      - [data_provider/yfinance_fetcher.py] (class [YfinanceFetcher]):
        ticker validation, the retrying download, the normalisation of the
        provider's table;
      - [src/market_analyzer.py] (class [MarketAnalyzer]): the collection of
        the index snapshots, the news search, the report and the daily
        review.

    Python values are modelled as follows.
      - [str] is [string], holding the UTF-8 bytes of the text.  [upper],
        [strip] and [isspace] are those of Python on ASCII text ([is_ascii]),
        which is what the ticker grammar accepts; on other text Python's
        [upper] and [strip] do more than the model's (a letter outside ASCII
        is upper-cased too, white space outside ASCII is stripped too), so a
        statement about arbitrary input is made for ASCII input.  A
        character is a lead byte with its continuation bytes, which is how
        slices and lengths count.
      - [float] and the float64 cells of a table are the kernel's binary64
        floats, so arithmetic rounds as it does in the program.
      - an exception is a value of [exn]; a call that may raise returns a
        [result]; a call that also talks to the outside world (provider,
        sleep, log) is a function on an explicit [world]. *)

From Stdlib Require Import ZArith List String Ascii Bool Lia Floats Uint63 PeanoNat.
From Stdlib Require Import DecimalString.
Import ListNotations.

Open Scope string_scope.
Open Scope bool_scope.

(* ================================================================== *)
(** * Python: exceptions, results, strings *)
(* ================================================================== *)

Module Py.

(** The exception classes that occur.  [DataFetchError] is the one class the
    fetcher raises itself (imported from [data_provider/base.py]); [KeyError],
    [ValueError] and [TypeError] come from the table library; [RetryError] is
    what the retry decorator raises once it gives up, holding the failure of
    its last attempt; [ProviderError] stands for whatever the data-provider
    client raises; [AttributeError] is raised by the report for a news item
    it cannot read.  All of them derive from [Exception]. *)
Inductive exn : Type :=
| DataFetchError (msg : string)
| KeyError (key : string)
| ValueError (msg : string)
| TypeError (msg : string)
| RetryError (last_attempt : exn)
| ProviderError (msg : string)
| AttributeError (msg : string).

(** [type(e).__name__] *)
Definition class_name (e : exn) : string :=
  match e with
  | DataFetchError _ => "DataFetchError"
  | KeyError _ => "KeyError"
  | ValueError _ => "ValueError"
  | TypeError _ => "TypeError"
  | RetryError _ => "RetryError"
  | ProviderError _ => "ProviderError"
  | AttributeError _ => "AttributeError"
  end.

Inductive result (A : Type) : Type :=
| Ok (a : A)
| Err (e : exn).
Arguments Ok {A} a.
Arguments Err {A} e.

Definition bind {A B} (r : result A) (k : A -> result B) : result B :=
  match r with
  | Ok a => k a
  | Err e => Err e
  end.

Definition is_ok {A} (r : result A) : bool :=
  match r with Ok _ => true | Err _ => false end.

(** ** [str.strip] and [str.upper], on ASCII text *)

Definition newline : ascii := "010"%char.

(** [str.isascii]: every byte is below 128. *)
Definition is_ascii (s : string) : bool :=
  forallb (fun c => (nat_of_ascii c <? 128)%nat) (list_ascii_of_string s).

(** [str.isspace] on ASCII: TAB, LF, VT, FF, CR, the separators FS, GS, RS, US
    and the blank. *)
Definition isspace (c : ascii) : bool :=
  let n := nat_of_ascii c in
  ((9 <=? n)%nat && (n <=? 13)%nat) || ((28 <=? n)%nat && (n <=? 32)%nat).

Definition isupper (c : ascii) : bool :=
  let n := nat_of_ascii c in (65 <=? n)%nat && (n <=? 90)%nat.

Definition islower (c : ascii) : bool :=
  let n := nat_of_ascii c in (97 <=? n)%nat && (n <=? 122)%nat.

Definition toupper (c : ascii) : ascii :=
  if islower c then ascii_of_nat (nat_of_ascii c - 32) else c.

(** [str.upper] for ASCII text: the letters a to z are replaced. *)
Fixpoint upper (s : string) : string :=
  match s with
  | EmptyString => EmptyString
  | String c s' => String (toupper c) (upper s')
  end.

(** [str.lstrip], [str.rstrip] and [str.strip] for ASCII text: the white
    space of [isspace] is removed at the ends. *)
Fixpoint lstrip (s : string) : string :=
  match s with
  | EmptyString => EmptyString
  | String c s' => if isspace c then lstrip s' else s
  end.

Fixpoint rstrip (s : string) : string :=
  match s with
  | EmptyString => EmptyString
  | String c s' =>
      match rstrip s' with
      | EmptyString => if isspace c then EmptyString else String c EmptyString
      | r => String c r
      end
  end.

Definition strip (s : string) : string := rstrip (lstrip s).

End Py.

(* ================================================================== *)
(** * The fragment of [re] that the ticker pattern uses *)
(* ================================================================== *)

Module re.

Inductive regex : Type :=
| Bol                              (* ^ *)
| Eol                              (* $ *)
| Chr (c : ascii)                  (* an escaped literal, here \. *)
| Rng (lo hi : ascii)              (* [lo-hi] *)
| Cat (r1 r2 : regex)
| Opt (r : regex)                  (* (r)? *)
| Rep (r : regex) (m n : nat).     (* r{m,n} *)

Definition in_range (lo hi c : ascii) : bool :=
  (nat_of_ascii lo <=? nat_of_ascii c)%nat && (nat_of_ascii c <=? nat_of_ascii hi)%nat.

(** Without [re.MULTILINE], [$] matches at the end of the string and just
    before a newline that ends the string. *)
Definition at_end (s : string) : bool :=
  match s with
  | EmptyString => true
  | String c EmptyString => Ascii.eqb c Py.newline
  | _ => false
  end.

(** Backtracking matcher in continuation style: [accepts r bos s k] holds when
    [r] matches a prefix of [s] and [k] accepts what is left.  [bos] tells
    whether the position is the beginning of the subject string. *)
Fixpoint accepts (r : regex) (bos : bool) (s : string)
         (k : bool -> string -> bool) {struct r} : bool :=
  match r with
  | Bol => bos && k bos s
  | Eol => at_end s && k bos s
  | Chr c =>
      match s with
      | String a s' => Ascii.eqb a c && k false s'
      | EmptyString => false
      end
  | Rng lo hi =>
      match s with
      | String a s' => in_range lo hi a && k false s'
      | EmptyString => false
      end
  | Cat r1 r2 => accepts r1 bos s (fun b s' => accepts r2 b s' k)
  | Opt r1 => accepts r1 bos s k || k bos s
  | Rep r1 m n =>
      (fix rep (n : nat) (m : nat) (bos : bool) (s : string) {struct n} : bool :=
         match n with
         | O => (m =? 0)%nat && k bos s
         | S n' =>
             accepts r1 bos s (fun b s' => rep n' (Nat.pred m) b s')
             || ((m =? 0)%nat && k bos s)
         end) n m bos s
  end.

(** [re.match(pattern, s)] read as a truth value: the pattern must match at
    the beginning of [s]; nothing is required of the rest. *)
Definition match_ (pattern : regex) (s : string) : bool :=
  accepts pattern true s (fun _ _ => true).

End re.

(* ================================================================== *)
(** * The table library: columns, frames and the operations used *)
(* ================================================================== *)

Module pd.
Import Py.

(** ** float64 and int64 cells *)

Definition int64_min : Z := (- 2 ^ 63)%Z.

(** Two's-complement wrap-around of int64 arithmetic. *)
Definition wrap64 (z : Z) : Z := ((z + 2 ^ 63) mod 2 ^ 64 - 2 ^ 63)%Z.

(** The float64 nearest to an int64 (ties to even), as numpy's cast and
    Python's [float(int)] compute it. *)
Definition float_of_int (z : Z) : float :=
  if (z =? int64_min)%Z then (-9223372036854775808)%float
  else if (z <? 0)%Z then (- PrimFloat.of_uint63 (Uint63.of_Z (- z)))%float
  else PrimFloat.of_uint63 (Uint63.of_Z z).

Definition two52 : float := 4503599627370496%float.

(** [rint]: the nearest integer, ties to even, with the sign of the argument.
    Below 2^52 in magnitude, adding and removing 2^52 rounds to an integer in
    the ambient round-to-nearest-even mode; from 2^52 on every float64 is an
    integer already. *)
Definition rint (x : float) : float :=
  if PrimFloat.is_zero x then x
  else if (PrimFloat.abs x <? two52)%float then
    if (x <? 0)%float then (- ((- x + two52) - two52))%float
    else ((x + two52) - two52)%float
  else x.

(** [numpy.round(x, 2)], which is [rint(x * 100) / 100]. *)
Definition round2 (x : float) : float := (rint (x * 100) / 100)%float.

(** ** Columns *)

(** A column (a [Series] without its index) with its dtype.  [Datetime64]
    holds nanoseconds since the epoch, [Object] holds [str] values. *)
Inductive column : Type :=
| Float64 (xs : list float)
| Int64 (xs : list Z)
| Datetime64 (xs : list Z)
| Object (xs : list string).

Definition size (c : column) : nat :=
  match c with
  | Float64 xs => List.length xs
  | Int64 xs => List.length xs
  | Datetime64 xs => List.length xs
  | Object xs => List.length xs
  end.

Fixpoint zip_with {A B C} (f : A -> B -> C) (xs : list A) (ys : list B) : list C :=
  match xs, ys with
  | x :: xs', y :: ys' => f x y :: zip_with f xs' ys'
  | _, _ => []
  end.

(** [Series.shift(1)] on float64 data: every value moves down one row, the
    first row becomes NaN, the last value is dropped. *)
Definition shift (xs : list float) : list float :=
  match xs with
  | [] => []
  | _ :: _ => nan :: removelast xs
  end.

(** [Series.ffill()] on float64 data: a missing value takes the last value
    above it that is not missing; missing values at the top stay. *)
Fixpoint ffill_from (last : float) (xs : list float) : list float :=
  match xs with
  | [] => []
  | x :: xs' =>
      if PrimFloat.is_nan x then last :: ffill_from last xs'
      else x :: ffill_from x xs'
  end.

Definition ffill (xs : list float) : list float := ffill_from nan xs.

(** [Series.pct_change()] over one period: [data / data.shift(1) - 1], where
    [data] is the series itself, or the series with its missing values
    filled forward when [fill_forward] is set. *)
Definition pct_change_values (fill_forward : bool) (xs : list float) : list float :=
  let data := if fill_forward then ffill xs else xs in
  zip_with (fun x prev => (x / prev - 1)%float) data (shift data).

Definition pct_change (fill_forward : bool) (c : column) : result (list float) :=
  match c with
  | Float64 xs => Ok (pct_change_values fill_forward xs)
  | Int64 xs => Ok (pct_change_values fill_forward (map float_of_int xs))
  | Datetime64 _ => Err (TypeError "unsupported operand type(s) for /")
  | Object _ => Err (TypeError "unsupported operand type(s) for /")
  end.

(** [series * 100] on float64 data *)
Definition times100 (xs : list float) : list float :=
  map (fun x => (x * 100)%float) xs.

(** [Series.fillna(0)] on float64 data *)
Definition fillna0 (xs : list float) : list float :=
  map (fun x => if PrimFloat.is_nan x then 0%float else x) xs.

(** [Series.round(2)] on float64 data *)
Definition round_2 (xs : list float) : list float := map round2 xs.

Fixpoint repeat_str (s : string) (n : nat) : string :=
  match n with
  | O => EmptyString
  | S n' => s ++ repeat_str s n'
  end.

(** [left * right] on two columns of one frame, row by row.  Two int64
    columns stay int64; an int64 operand next to a float64 one is cast; a
    [str] times an [int] repeats the string as in Python; the other
    combinations raise [TypeError]. *)
Definition mul (a b : column) : result column :=
  match a, b with
  | Float64 xs, Float64 ys => Ok (Float64 (zip_with PrimFloat.mul xs ys))
  | Int64 xs, Float64 ys => Ok (Float64 (zip_with PrimFloat.mul (map float_of_int xs) ys))
  | Float64 xs, Int64 ys => Ok (Float64 (zip_with PrimFloat.mul xs (map float_of_int ys)))
  | Int64 xs, Int64 ys => Ok (Int64 (zip_with (fun x y => wrap64 (x * y)) xs ys))
  | Object xs, Int64 ys => Ok (Object (zip_with (fun s n => repeat_str s (Z.to_nat n)) xs ys))
  | Int64 xs, Object ys => Ok (Object (zip_with (fun n s => repeat_str s (Z.to_nat n)) xs ys))
  | _, _ => Err (TypeError "unsupported operand type(s) for *")
  end.

(** ** Frames *)

(** A [DataFrame]: the index with its name, and the labelled columns in
    order.  Labels may repeat.  In a frame built by the library every column
    is as long as the index. *)
Record DataFrame : Type := mkFrame {
  index_name : option string;
  index : column;
  columns : list (string * column)
}.

(** [len(df)] *)
Definition len (df : DataFrame) : nat := size (index df).

(** [df.empty]: some axis has length 0. *)
Definition empty (df : DataFrame) : bool :=
  (len df =? 0)%nat || match columns df with [] => true | _ :: _ => false end.

Definition labels (df : DataFrame) : list string := map fst (columns df).

(** [label in df.columns] *)
Definition has_column (df : DataFrame) (label : string) : bool :=
  existsb (String.eqb label) (labels df).

Definition RangeIndex (n : nat) : column := Int64 (map Z.of_nat (seq 0 n)).

(** [df.reset_index()]: the index becomes the first column, under the name of
    the index ([index] when it has none, [level_0] when that is taken), and a
    fresh [RangeIndex] replaces it; a label that exists already is refused. *)
Definition reset_index (df : DataFrame) : result DataFrame :=
  let label :=
    match index_name df with
    | Some n => n
    | None => if has_column df "index" then "level_0" else "index"
    end in
  if has_column df label
  then Err (ValueError ("cannot insert " ++ label ++ ", already exists"))
  else Ok {| index_name := None;
             index := RangeIndex (len df);
             columns := (label, index df) :: columns df |}.

Fixpoint lookup {V} (k : string) (m : list (string * V)) : option V :=
  match m with
  | [] => None
  | (k', v) :: m' => if String.eqb k k' then Some v else lookup k m'
  end.

(** [df.rename(columns=mapping)]: a label that is a key of the mapping is
    replaced, the others stay. *)
Definition rename (mapping : list (string * string)) (df : DataFrame) : DataFrame :=
  {| index_name := index_name df;
     index := index df;
     columns := map (fun p => (match lookup (fst p) mapping with
                               | Some l => l
                               | None => fst p
                               end, snd p)) (columns df) |}.

Definition labelled (label : string) (p : string * column) : bool :=
  String.eqb (fst p) label.

(** [df[label]] used as one column.  An absent label raises [KeyError].  For a
    label that occurs several times the library hands back a sub-frame, and
    each statement of the fetcher that uses it as a column then raises
    [ValueError]; the model raises it at the lookup. *)
Definition getitem (df : DataFrame) (label : string) : result column :=
  match filter (labelled label) (columns df) with
  | [] => Err (KeyError label)
  | [(_, c)] => Ok c
  | _ :: _ :: _ => Err (ValueError label)
  end.

(** [df[label] = c]: every column under that label is replaced; a new label
    is appended as the last column. *)
Definition setitem (df : DataFrame) (label : string) (c : column) : DataFrame :=
  {| index_name := index_name df;
     index := index df;
     columns :=
       if has_column df label
       then map (fun p => if labelled label p then (label, c) else p) (columns df)
       else columns df ++ [(label, c)] |}.

(** [df[label] = scalar]: the scalar fills the column. *)
Definition setitem_str (df : DataFrame) (label : string) (s : string) : DataFrame :=
  setitem df label (Object (repeat s (len df))).

(** [df[[l1, l2, ...]]] for labels that all exist: the columns under [l1],
    then those under [l2], and so on; the rows are untouched. *)
Definition select (df : DataFrame) (ls : list string) : DataFrame :=
  {| index_name := index_name df;
     index := index df;
     columns := flat_map (fun l => filter (labelled l) (columns df)) ls |}.

(** The first column under a label, for reading a frame. *)
Definition column_of (df : DataFrame) (label : string) : option column :=
  lookup label (columns df).

End pd.

(* ================================================================== *)
(** * The outside world of a fetch, and the retry decorator *)
(* ================================================================== *)

Module World.
Import Py.

(** What a fetch leaves behind: the attempts the retry decorator has started
    (its [attempt_number] statistic, summed), the seconds slept between
    attempts, the arguments of the provider calls issued, and the lines
    logged; each list in the order of time. *)
Record world : Type := mkWorld {
  attempts : nat;
  sleeps : list Z;
  downloads : list (string * string * string);
  log : list string
}.

Definition initial : world :=
  {| attempts := 0; sleeps := []; downloads := []; log := [] |}.

(** A computation that may raise and may act on the world. *)
Definition M (A : Type) : Type := world -> result A * world.

Definition ret {A} (a : A) : M A := fun w => (Ok a, w).
Definition raise {A} (e : exn) : M A := fun w => (Err e, w).
Definition lift {A} (r : result A) : M A := fun w => (r, w).

Definition bind {A B} (m : M A) (k : A -> M B) : M B :=
  fun w =>
    match m w with
    | (Ok a, w') => k a w'
    | (Err e, w') => (Err e, w')
    end.

Definition count_attempt (w : world) : world :=
  {| attempts := S (attempts w); sleeps := sleeps w;
     downloads := downloads w; log := log w |}.

(** [time.sleep(seconds)] *)
Definition sleep (seconds : Z) (w : world) : world :=
  {| attempts := attempts w; sleeps := sleeps w ++ [seconds];
     downloads := downloads w; log := log w |}.

(** [logger.info(line)] *)
Definition logger_info (line : string) : M unit :=
  fun w => (Ok tt, {| attempts := attempts w; sleeps := sleeps w;
                      downloads := downloads w; log := log w ++ [line] |}).

Definition record_download (args : string * string * string) (w : world) : world :=
  {| attempts := attempts w; sleeps := sleeps w;
     downloads := downloads w ++ [args]; log := log w |}.

End World.

Declare Scope fetch_scope.
Delimit Scope fetch_scope with fetch.
Notation "x <- m ;; k" := (World.bind m (fun x => k))
  (at level 61, m at next level, right associativity) : fetch_scope.
Notation "m ;;; k" := (World.bind m (fun _ => k))
  (at level 61, right associativity) : fetch_scope.

Declare Scope result_scope.
Delimit Scope result_scope with result.
Notation "x <- m ;; k" := (Py.bind m (fun x => k))
  (at level 61, m at next level, right associativity) : result_scope.

Module tenacity.
Import Py World.

(** [wait_exponential(multiplier, min, max)]: the wait after attempt number
    [attempt_number] (counted from 1) is [multiplier * 2 ** (attempt_number - 1)],
    kept between [max(0, min)] and [max]. *)
Definition wait_exponential (multiplier min max : Z) (attempt_number : nat) : Z :=
  Z.max (Z.max 0 min) (Z.min (multiplier * 2 ^ (Z.of_nat attempt_number - 1)) max).

(** The decorator's loop.  Attempt [attempt_number] runs the function.  A
    return value is handed to the caller.  A raised exception ends the loop
    with [RetryError] around it when the stop condition holds (no attempt
    [remaining]); otherwise the loop sleeps for [wait attempt_number] and runs
    the next attempt.  The defaults apply elsewhere: every [Exception] is
    retried, and [reraise] is off. *)
Fixpoint attempt {A} (remaining attempt_number : nat) (wait : nat -> Z)
         (fn : M A) : M A :=
  fun w =>
    match fn (count_attempt w) with
    | (Ok a, w') => (Ok a, w')
    | (Err e, w') =>
        match remaining with
        | O => (Err (RetryError e), w')
        | S remaining' =>
            attempt remaining' (S attempt_number) wait fn
                    (sleep (wait attempt_number) w')
        end
    end.

(** [@retry(stop=stop_after_attempt(n), wait=wait)] *)
Definition retry {A} (stop_after_attempt : nat) (wait : nat -> Z) (fn : M A) : M A :=
  attempt (stop_after_attempt - 1) 1 wait fn.

End tenacity.

(* ================================================================== *)
(** * data_provider/yfinance_fetcher.py *)
(* ================================================================== *)

Module YfinanceFetcher.
Import Py pd World.

Definition name : string := "YfinanceFetcher".
Definition priority : Z := 0%Z.

(** The pattern [^[A-Z]{1,6}(\.[A-Z]{1,2})?$] *)
Definition US_CODE : re.regex :=
  re.Cat re.Bol
    (re.Cat (re.Rep (re.Rng "A" "Z") 1 6)
       (re.Cat (re.Opt (re.Cat (re.Chr ".") (re.Rep (re.Rng "A" "Z") 1 2)))
          re.Eol)).

Definition _validate_us_stock_code (stock_code : string) : result string :=
  let code := upper (strip stock_code) in
  if re.match_ US_CODE code
  then Ok code
  else Err (DataFetchError ("非法美股代码: " ++ stock_code)).

(** The renaming of the provider's column names *)
Definition RENAMES : list (string * string) :=
  [("Date", "date"); ("Open", "open"); ("High", "high");
   ("Low", "low"); ("Close", "close"); ("Volume", "volume")].

Section Fetcher.

(** [yf.download]: what the provider answers to its [n]-th call (counted from
    0) for a ticker and a date range: a frame, [None], or an exception. *)
Variable download : nat -> string -> string -> string -> result (option DataFrame).

(** [STANDARD_COLUMNS] of [data_provider/base.py], the canonical column names
    after [code]. *)
Variable STANDARD_COLUMNS : list string.

(** [pd.to_datetime] on a column *)
Variable to_datetime : column -> result column.

(** Whether [Series.pct_change], called without arguments, fills missing
    values forward before it divides: the library did so by default before
    its version 3 and does not since. *)
Variable pct_change_fills : bool.

Definition yf_download (tickers start_date end_date : string) : M (option DataFrame) :=
  fun w =>
    (download (List.length (downloads w)) tickers start_date end_date,
     record_download (tickers, start_date, end_date) w).

(** The body of [_fetch_raw_data], one attempt. *)
Definition _fetch_raw_data_once (stock_code start_date end_date : string) : M DataFrame :=
  (yf_code <- lift (_validate_us_stock_code stock_code) ;;
   logger_info ("[YFinance] 下载 " ++ yf_code ++ " 数据: "
                  ++ start_date ++ " → " ++ end_date) ;;;
   df <- yf_download yf_code start_date end_date ;;
   match df with
   | None => raise (DataFetchError ("Yahoo Finance 无数据: " ++ yf_code))
   | Some df =>
       if empty df
       then raise (DataFetchError ("Yahoo Finance 无数据: " ++ yf_code))
       else ret df
   end)%fetch.

(** [_fetch_raw_data] under
    [@retry(stop=stop_after_attempt(3), wait=wait_exponential(min=2, max=10))] *)
Definition _fetch_raw_data (stock_code start_date end_date : string) : M DataFrame :=
  tenacity.retry 3 (tenacity.wait_exponential 1 2 10)
    (_fetch_raw_data_once stock_code start_date end_date).

Definition _normalize_data (df : option DataFrame) (stock_code : string)
  : result DataFrame :=
  match df with
  | None => Err (DataFetchError ("标准化失败，数据为空: " ++ stock_code))
  | Some df =>
      if empty df
      then Err (DataFetchError ("标准化失败，数据为空: " ++ stock_code))
      else
        (df <- reset_index df ;;
         let df := rename RENAMES df in
         date <- getitem df "date" ;;
         date <- to_datetime date ;;
         let df := setitem df "date" date in
         close <- getitem df "close" ;;
         change <- pct_change pct_change_fills close ;;
         (* the column stored by the first assignment to pct_chg is the one
            the second assignment reads back *)
         let pct_chg := times100 change in
         let df := setitem df "pct_chg" (Float64 pct_chg) in
         let pct_chg := round_2 (fillna0 pct_chg) in
         let df := setitem df "pct_chg" (Float64 pct_chg) in
         volume <- getitem df "volume" ;;
         close <- getitem df "close" ;;
         amount <- mul volume close ;;
         let df := setitem df "amount" amount in
         let df := setitem_str df "code" (upper stock_code) in
         let keep_cols := "code" :: STANDARD_COLUMNS in
         Ok (select df (filter (has_column df) keep_cols)))%result
  end.

(** Modelled from the spec: the fetcher facade [fetchHistory], which the class
    inherits from [BaseFetcher] of [data_provider/base.py].  It composes the
    validator, the retrying fetcher and the normaliser in strict sequence and
    stops at the first failure; the fetcher and the normaliser receive the
    validated ticker. *)
Definition fetchHistory (rawCode startDate endDate : string) : M DataFrame :=
  (ticker <- lift (_validate_us_stock_code rawCode) ;;
   raw <- _fetch_raw_data ticker startDate endDate ;;
   lift (_normalize_data (Some raw) ticker))%fetch.

End Fetcher.

End YfinanceFetcher.

(* ================================================================== *)
(** * Frames as objects: [_normalize_data] and the table it is given *)
(* ================================================================== *)

Declare Scope heap_scope.
Delimit Scope heap_scope with heap.

Module Objects.
Import Py.

(** A variable of the program holds a reference to a frame.  The heap has the
    frame behind every reference; [fresh] is the reference that the next new
    frame gets. *)
Record heap : Type := mkHeap {
  frame_at : nat -> pd.DataFrame;
  fresh : nat
}.

(** The frame behind [r] is replaced. *)
Definition put (r : nat) (df : pd.DataFrame) (h : heap) : heap :=
  {| frame_at := fun r' => if (r' =? r)%nat then df else frame_at h r';
     fresh := fresh h |}.

(** A new frame comes into being. *)
Definition new (df : pd.DataFrame) (h : heap) : nat * heap :=
  (fresh h,
   {| frame_at := fun r' => if (r' =? fresh h)%nat then df else frame_at h r';
      fresh := S (fresh h) |}).

(** A computation that may raise and may act on the heap. *)
Definition H (A : Type) : Type := heap -> result A * heap.

Definition ret {A} (a : A) : H A := fun h => (Ok a, h).
Definition raise {A} (e : exn) : H A := fun h => (Err e, h).
Definition lift {A} (r : result A) : H A := fun h => (r, h).

Definition bind {A B} (m : H A) (k : A -> H B) : H B :=
  fun h =>
    match m h with
    | (Ok a, h') => k a h'
    | (Err e, h') => (Err e, h')
    end.

Notation "x <- m ;; k" := (bind m (fun x => k))
  (at level 61, m at next level, right associativity) : heap_scope.
Notation "m ;;; k" := (bind m (fun _ => k))
  (at level 61, right associativity) : heap_scope.

(** Looking at a frame: [df.empty], [c in df.columns] *)
Definition read (df : nat) : H pd.DataFrame := fun h => (Ok (frame_at h df), h).

(** [df.reset_index()] makes a new frame and leaves the one it is called on
    as it is. *)
Definition reset_index (df : nat) : H nat :=
  fun h =>
    match pd.reset_index (frame_at h df) with
    | Ok out => let (r, h') := new out h in (Ok r, h')
    | Err e => (Err e, h)
    end.

(** [df.rename(columns=mapping, inplace=True)] changes the frame itself. *)
Definition rename_inplace (mapping : list (string * string)) (df : nat) : H unit :=
  fun h => (Ok tt, put df (pd.rename mapping (frame_at h df)) h).

(** [df[label]] *)
Definition getitem (df : nat) (label : string) : H pd.column :=
  fun h => (pd.getitem (frame_at h df) label, h).

(** [df[label] = c] and [df[label] = scalar] change the frame itself. *)
Definition setitem (df : nat) (label : string) (c : pd.column) : H unit :=
  fun h => (Ok tt, put df (pd.setitem (frame_at h df) label c) h).

Definition setitem_str (df : nat) (label : string) (s : string) : H unit :=
  fun h => (Ok tt, put df (pd.setitem_str (frame_at h df) label s) h).

(** [df[[l1, l2, ...]]] makes a new frame. *)
Definition select (df : nat) (ls : list string) : H nat :=
  fun h => let (r, h') := new (pd.select (frame_at h df) ls) h in (Ok r, h').

Section Normalizer.

Variable STANDARD_COLUMNS : list string.
Variable to_datetime : pd.column -> result pd.column.
Variable pct_change_fills : bool.

(** [_normalize_data] on the frame behind [df], statement by statement: the
    name [df] is bound anew by [reset_index] and by the final selection, and
    the statements in between change the frame that [df] then refers to. *)
Definition _normalize_data (df : option nat) (stock_code : string) : H nat :=
  match df with
  | None => raise (DataFetchError ("标准化失败，数据为空: " ++ stock_code))
  | Some df =>
      (raw <- read df ;;
       if pd.empty raw
       then raise (DataFetchError ("标准化失败，数据为空: " ++ stock_code))
       else
         df <- reset_index df ;;
         rename_inplace YfinanceFetcher.RENAMES df ;;;
         date <- getitem df "date" ;;
         date <- lift (to_datetime date) ;;
         setitem df "date" date ;;;
         close <- getitem df "close" ;;
         change <- lift (pd.pct_change pct_change_fills close) ;;
         (* the column stored by the first assignment to pct_chg is the one
            the second assignment reads back *)
         let pct_chg := pd.times100 change in
         setitem df "pct_chg" (pd.Float64 pct_chg) ;;;
         let pct_chg := pd.round_2 (pd.fillna0 pct_chg) in
         setitem df "pct_chg" (pd.Float64 pct_chg) ;;;
         volume <- getitem df "volume" ;;
         close <- getitem df "close" ;;
         amount <- lift (pd.mul volume close) ;;
         setitem df "amount" amount ;;;
         setitem_str df "code" (upper stock_code) ;;;
         let keep_cols := "code" :: STANDARD_COLUMNS in
         now <- read df ;;
         select df (filter (pd.has_column now) keep_cols))%heap
  end.

End Normalizer.

(** The table that a run ends with, or the exception. *)
Definition contents (run : result nat * heap) : result pd.DataFrame :=
  match fst run with
  | Ok out => Ok (frame_at (snd run) out)
  | Err e => Err e
  end.

End Objects.

(* ================================================================== *)
(** * src/market_analyzer.py *)
(* ================================================================== *)

Module MarketAnalyzer.
Import Py pd.

Record MarketIndex : Type := mkMarketIndex {
  code : string;
  name : string;
  current : float;
  change : float;
  change_pct : float;
  open : float;
  high : float;
  low : float;
  prev_close : float
}.

(** The class attribute [MAIN_INDICES]; a [dict] is iterated in the order of
    insertion. *)
Definition MAIN_INDICES : list (string * string) :=
  [("^GSPC", "S&P 500"); ("^IXIC", "NASDAQ Composite");
   ("^DJI", "Dow Jones"); ("^VIX", "VIX Volatility")].

(** One cell of a frame *)
Inductive scalar : Type :=
| SFloat (x : float)
| SInt (z : Z)
| STime (ns : Z)
| SStr (s : string).

Definition cell (c : column) (i : nat) : option scalar :=
  match c with
  | Float64 xs => option_map SFloat (nth_error xs i)
  | Int64 xs => option_map SInt (nth_error xs i)
  | Datetime64 xs => option_map STime (nth_error xs i)
  | Object xs => option_map SStr (nth_error xs i)
  end.

(** [df.iloc[i][label]] for a row [i] of the frame.  A label met several times
    yields a sub-series, which [float] then refuses. *)
Definition at_row (df : DataFrame) (i : nat) (label : string) : result scalar :=
  match filter (labelled label) (columns df) with
  | [] => Err (KeyError label)
  | [(_, c)] =>
      match cell c i with
      | Some v => Ok v
      | None => Err (KeyError label)
      end
  | _ :: _ :: _ => Err (TypeError "cannot convert the series to float")
  end.

Section Analyzer.

(** [yf.Ticker(code).history(period="2d")]: a frame or an exception. *)
Variable history : string -> result DataFrame.

(** [float(s)] for a [str]; [None] when the text is not a number. *)
Variable float_of_str : string -> option float.

(** [float(v)] *)
Definition float_ (v : scalar) : result float :=
  match v with
  | SFloat x => Ok x
  | SInt z => Ok (float_of_int z)
  | STime _ => Err (TypeError "float() argument must be a string or a real number")
  | SStr s =>
      match float_of_str s with
      | Some x => Ok x
      | None => Err (ValueError ("could not convert string to float: " ++ s))
      end
  end.

(** The body of the [try] for one index: [None] stands for [continue]. *)
Definition snapshot (code name : string) : result (option MarketIndex) :=
  (hist <- history code ;;
   if empty hist then Ok None
   else
     let today := (len hist - 1)%nat in
     let prev := if (1 <? len hist)%nat then (len hist - 2)%nat else today in
     v <- at_row hist today "Close" ;;
     price <- float_ v ;;
     v <- at_row hist prev "Close" ;;
     prev_close <- float_ v ;;
     let change := (price - prev_close)%float in
     let change_pct :=
       if PrimFloat.is_zero prev_close then 0%float
       else (change / prev_close * 100)%float in
     v <- at_row hist today "Open" ;;
     open <- float_ v ;;
     v <- at_row hist today "High" ;;
     high <- float_ v ;;
     v <- at_row hist today "Low" ;;
     low <- float_ v ;;
     Ok (Some {| code := code; name := name; current := price;
                 change := change; change_pct := change_pct;
                 open := open; high := high; low := low;
                 prev_close := prev_close |}))%result.

(** The [for] loop over the configured indices.  The state is the list built
    so far and the warnings logged, each with the name of the index and the
    exception caught by [except Exception]. *)
Fixpoint collect (items : list (string * string))
         (indices : list MarketIndex) (warnings : list (string * exn))
  : result (list MarketIndex * list (string * exn)) :=
  match items with
  | [] => Ok (indices, warnings)
  | (code, name) :: rest =>
      match snapshot code name with
      | Ok None => collect rest indices warnings
      | Ok (Some entry) => collect rest (indices ++ [entry]) warnings
      | Err e => collect rest indices (warnings ++ [(name, e)])
      end
  end.

(** [_get_main_indices], for the index table [indices_config] in the place of
    [self.MAIN_INDICES]: the result of the call and the warnings logged. *)
Definition _get_main_indices (indices_config : list (string * string))
  : result (list MarketIndex) * list (string * exn) :=
  match collect indices_config [] [] with
  | Ok (indices, warnings) => (Ok indices, warnings)
  | Err e => (Err e, [])
  end.

End Analyzer.

End MarketAnalyzer.

(* ================================================================== *)
(** * src/market_analyzer.py: news, report and daily review *)
(* ================================================================== *)

Module MarketReview.
Import Py pd MarketAnalyzer.

(** ** Text *)

Definition is_empty (s : string) : bool :=
  match s with
  | EmptyString => true
  | String _ _ => false
  end.

(** [str.split()] without arguments: the pieces between runs of white space;
    no piece is empty. *)
Fixpoint split_from (word s : string) : list string :=
  match s with
  | EmptyString => if is_empty word then [] else [word]
  | String c s' =>
      if isspace c
      then if is_empty word then split_from EmptyString s'
           else word :: split_from EmptyString s'
      else split_from (word ++ String c EmptyString) s'
  end.

Definition split (s : string) : list string := split_from EmptyString s.

(** [sep.join(parts)] *)
Fixpoint join (sep : string) (parts : list string) : string :=
  match parts with
  | [] => EmptyString
  | [p] => p
  | p :: rest => p ++ sep ++ join sep rest
  end.

(** A byte that continues a character of the UTF-8 text: 10xxxxxx. *)
Definition continuation (c : ascii) : bool :=
  let n := nat_of_ascii c in (128 <=? n)%nat && (n <? 192)%nat.

(** [len(s)]: the characters of the text, one for every byte that does not
    continue another. *)
Fixpoint characters (s : string) : nat :=
  match s with
  | EmptyString => 0
  | String c s' => if continuation c then characters s' else S (characters s')
  end.

(** [s[:n]]: the first [n] characters, each with all of its bytes. *)
Fixpoint take (n : nat) (s : string) : string :=
  match s with
  | EmptyString => EmptyString
  | String c s' =>
      if continuation c then String c (take n s')
      else
        match n with
        | O => EmptyString
        | S n' => String c (take n' s')
        end
  end.

Definition nl : string := String newline EmptyString.

(** ** [format(x, ".2f")] and [format(x, "+.2f")] *)

(** The integer nearest to [num / den], ties to even. *)
Definition round_half_even (num den : Z) : Z :=
  let q := (num / den)%Z in
  match (2 * (num mod den) ?= den)%Z with
  | Lt => q
  | Gt => (q + 1)%Z
  | Eq => if Z.even q then q else (q + 1)%Z
  end.

(** The number of hundredths nearest to [m * 2 ^ e]. *)
Definition hundredths (m : positive) (e : Z) : Z :=
  if (0 <=? e)%Z then (Zpos m * 2 ^ e * 100)%Z
  else round_half_even (Zpos m * 100) (2 ^ (- e)).

Definition decimal (n : Z) : string := NilZero.string_of_uint (N.to_uint (Z.to_N n)).

Definition two_digits (n : Z) : string :=
  if (n <? 10)%Z then "0" ++ decimal n else decimal n.

(** The conversion is the correctly rounded one: the decimal with two places
    nearest to the binary value, ties to even; the sign is that of the float
    and is written for positive values too when [always_sign] is set. *)
Definition format_2f (always_sign : bool) (x : float) : string :=
  let sign (negative : bool) :=
    if negative then "-" else if always_sign then "+" else EmptyString in
  match Prim2SF x with
  | S754_nan => sign false ++ "nan"
  | S754_infinity s => sign s ++ "inf"
  | S754_zero s => sign s ++ "0.00"
  | S754_finite s m e =>
      let n := hundredths m e in
      sign s ++ decimal (n / 100) ++ "." ++ two_digits (n mod 100)
  end.

(** ** The collaborators *)

Record MarketOverview : Type := mkMarketOverview {
  date : string;
  indices : list MarketIndex
}.

(** What a title may be: a [str], or a value of another type that cannot be
    sliced, such as [None]. *)
Inductive value : Type :=
| Str (s : string)
| Unsliceable (type_name : string).

(** A news item as the report meets it: an object with a [title] attribute;
    an object without one that has a [get], such as a [dict]; or an object
    of a class that has neither. *)
Inductive news_item : Type :=
| Titled (title : value)
| Mapping (fields : list (string * value))
| Plain (class_name : string).

(** The keyword arguments of one [search_stock_news] call *)
Record search_call : Type := mkSearchCall {
  stock_code : string;
  stock_name : string;
  max_results : Z;
  focus_keywords : list string
}.

(** The search service: for a call, an exception, a response that counts as
    false, or a response with its [results].  One run of the search asks
    every question once, so the answer is a function of the call. *)
Definition SearchService : Type := search_call -> result (option (list news_item)).

(** The options handed to the text generation *)
Record options : Type := mkOptions {
  temperature : float;
  max_output_tokens : Z
}.

(** The text-generation backend: its availability check and its call. *)
Record Analyzer : Type := mkAnalyzer {
  is_available : result bool;
  _call_openai_api : string -> options -> result string
}.

(** ** The methods *)

Section Review.

Variable history : string -> result DataFrame.
Variable float_of_str : string -> option float.

(** [datetime.now().strftime("%Y-%m-%d")] *)
Variable today : string.

Variable search_service : option SearchService.
Variable analyzer : option Analyzer.

(** [get_market_overview], for the index table in the place of
    [self.MAIN_INDICES]: the overview and the warnings logged. *)
Definition get_market_overview (indices_config : list (string * string))
  : result MarketOverview * list (string * exn) :=
  match _get_main_indices history float_of_str indices_config with
  | (Ok found, warnings) => (Ok {| date := today; indices := found |}, warnings)
  | (Err e, warnings) => (Err e, warnings)
  end.

Definition QUERIES : list string :=
  ["US stock market news today"; "Wall Street market recap";
   "NASDAQ S&P500 market analysis"].

Definition call_for (q : string) : search_call :=
  {| stock_code := "market"; stock_name := "US Market";
     max_results := 3%Z; focus_keywords := split q |}.

(** The loop of [search_market_news] over the queries: the news gathered and
    the calls issued.  A response that counts as false, or one without
    results, adds nothing; the bare [except] drops whatever is raised. *)
Fixpoint gather (service : SearchService) (queries : list string)
         (news : list news_item) (calls : list search_call)
  : list news_item * list search_call :=
  match queries with
  | [] => (news, calls)
  | q :: rest =>
      let calls := (calls ++ [call_for q])%list in
      match service (call_for q) with
      | Ok (Some results) =>
          match results with
          | [] => gather service rest news calls
          | _ :: _ => gather service rest (news ++ results) calls
          end
      | Ok None => gather service rest news calls
      | Err _ => gather service rest news calls
      end
  end.

(** [search_market_news], for the queries in the place of the three fixed
    ones. *)
Definition search_market_news_for (queries : list string)
  : list news_item * list search_call :=
  match search_service with
  | None => ([], [])
  | Some service => gather service queries [] []
  end.

Definition search_market_news : list news_item * list search_call :=
  search_market_news_for QUERIES.

(** [f"- {i.name}: {i.current:.2f} ({i.change_pct:+.2f}%)"] *)
Definition index_line (i : MarketIndex) : string :=
  "- " ++ name i ++ ": " ++ format_2f false (current i)
       ++ " (" ++ format_2f true (change_pct i) ++ "%)".

(** [fields.get(key, default)] *)
Fixpoint get (key : string) (default : value) (fields : list (string * value)) : value :=
  match fields with
  | [] => default
  | (k, v) :: rest => if String.eqb k key then v else get key default rest
  end.

(** [v[:60]] *)
Definition slice_60 (v : value) : result string :=
  match v with
  | Str s => Ok (take 60 s)
  | Unsliceable type_name =>
      Err (TypeError ("'" ++ type_name ++ "' object is not subscriptable"))
  end.

(** [n.title[:60] if hasattr(n, "title") else n.get("title", "")[:60]] *)
Definition news_line (n : news_item) : result string :=
  match n with
  | Titled title => slice_60 title
  | Mapping fields => slice_60 (get "title" (Str EmptyString) fields)
  | Plain class_name =>
      Err (AttributeError ("'" ++ class_name ++ "' object has no attribute 'get'"))
  end.

(** The list comprehension over the news, item by item: the first item that
    cannot be read ends it. *)
Fixpoint news_lines (news : list news_item) : result (list string) :=
  match news with
  | [] => Ok []
  | n :: rest =>
      (line <- news_line n ;;
       lines <- news_lines rest ;;
       Ok (line :: lines))%result
  end.

Definition indices_text (overview : MarketOverview) : string :=
  join nl (map index_line (indices overview)).

Definition news_text (news : list news_item) : result string :=
  (lines <- news_lines (firstn 5 news) ;; Ok (join nl lines))%result.

(** The prompt, for the two texts that go into it. *)
Definition prompt_of (overview : MarketOverview) (news_text : string) : string :=
  nl ++ "You are a professional US stock market analyst." ++ nl
  ++ nl ++ "Market Date: " ++ date overview ++ nl
  ++ nl ++ "Indices:" ++ nl ++ indices_text overview ++ nl
  ++ nl ++ "News:" ++ nl ++ news_text ++ nl
  ++ nl ++ "Write a concise US market recap in Markdown." ++ nl.

(** The float64 nearest to 0.7 *)
Definition seven_tenths : float := 0x1.6666666666666p-1%float.

(** [{"temperature": 0.7, "max_output_tokens": 1500}] *)
Definition OPTIONS : options :=
  {| temperature := seven_tenths; max_output_tokens := 1500%Z |}.

(** [generate_market_review]: the report, or the exception raised, and the
    prompts sent to the backend.  The two texts are built first, so a news
    item that cannot be read ends the call before the backend is looked
    at. *)
Definition generate_market_review (overview : MarketOverview) (news : list news_item)
  : result string * list (string * options) :=
  match news_text news with
  | Err e => (Err e, [])
  | Ok news_text =>
      let prompt := prompt_of overview news_text in
      let plain :=
        "### US Market Recap (" ++ date overview ++ ")" ++ nl ++ indices_text overview in
      match analyzer with
      | None => (Ok plain, [])
      | Some backend =>
          match is_available backend with
          | Err e => (Err e, [])
          | Ok false => (Ok plain, [])
          | Ok true => (_call_openai_api backend prompt OPTIONS, [(prompt, OPTIONS)])
          end
      end
  end.

(** What a daily review leaves behind *)
Record effects : Type := mkEffects {
  warnings : list (string * exn);
  searches : list search_call;
  prompts : list (string * options);
  infos : list string
}.

Definition STARTED : string := "========== 开始美股大盘复盘 ==========".
Definition FINISHED : string := "========== 美股大盘复盘完成 ==========".
Definition FETCHING : string := "[大盘] 获取美股主要指数行情...".

(** [run_daily_review], for the index table in the place of
    [self.MAIN_INDICES].  [FETCHING] is the line that [_get_main_indices]
    logs before its loop; the closing line is logged once the report is
    there. *)
Definition run_daily_review (indices_config : list (string * string))
  : result string * effects :=
  match get_market_overview indices_config with
  | (Err e, logged) =>
      (Err e, {| warnings := logged; searches := []; prompts := [];
                 infos := [STARTED; FETCHING] |})
  | (Ok overview, logged) =>
      let (news, asked) := search_market_news in
      match generate_market_review overview news with
      | (Ok report, sent) =>
          (Ok report, {| warnings := logged; searches := asked; prompts := sent;
                         infos := [STARTED; FETCHING; FINISHED] |})
      | (Err e, sent) =>
          (Err e, {| warnings := logged; searches := asked; prompts := sent;
                     infos := [STARTED; FETCHING] |})
      end
  end.

End Review.

End MarketReview.

(* ================================================================== *)
(** * The vocabulary of the properties *)
(* ================================================================== *)

Module Grammar.
Import Py.

(** Capital letters only *)
Definition capitals (s : string) : Prop :=
  Forall (fun c => isupper c = true) (list_ascii_of_string s).

(** The ticker grammar, stated on its own: one to six capital letters,
    optionally followed by a dot and one or two capital letters. *)
Definition ticker (s : string) : Prop :=
  exists root suffix,
    s = root ++ suffix
    /\ 1 <= String.length root <= 6
    /\ capitals root
    /\ (suffix = EmptyString
        \/ exists class,
             suffix = String "." class
             /\ 1 <= String.length class <= 2
             /\ capitals class).

(** [eat lo hi j s]: what is left of [s] after [j] characters of the range. *)
Fixpoint eat (lo hi : ascii) (j : nat) (s : string) : option string :=
  match j with
  | O => Some s
  | S j' =>
      match s with
      | String c s' => if re.in_range lo hi c then eat lo hi j' s' else None
      | EmptyString => None
      end
  end.

(** A character that [strip] and [upper] leave alone *)
Definition inert (c : ascii) : Prop := isspace c = false /\ toupper c = c.

End Grammar.

Module Attempts.
Import Py pd World.

(** A function under the decorator that leaves the decorator's counters alone
    and issues at most one provider call. *)
Definition frame {A} (fn : M A) : Prop :=
  forall w,
    attempts (snd (fn w)) = attempts w
    /\ sleeps (snd (fn w)) = sleeps w
    /\ List.length (downloads w) <= List.length (downloads (snd (fn w)))
       <= S (List.length (downloads w)).

(** The error raised when the provider has nothing for the ticker. *)
Definition no_data (yf_code : string) : exn :=
  DataFetchError ("Yahoo Finance 无数据: " ++ yf_code).

(** How one attempt reads the provider's reply. *)
Definition outcome (yf_code : string) (reply : result (option DataFrame))
  : result DataFrame :=
  match reply with
  | Err e => Err e
  | Ok None => Err (no_data yf_code)
  | Ok (Some df) => if empty df then Err (no_data yf_code) else Ok df
  end.

(** A reply that one attempt counts as a failure: the provider raised, gave
    [None], or gave an empty frame. *)
Definition no_result (reply : result (option DataFrame)) : bool :=
  match reply with
  | Err _ => true
  | Ok None => true
  | Ok (Some df) => empty df
  end.

(** The exception with which the attempt then ends. *)
Definition failure (yf_code : string) (reply : result (option DataFrame)) : exn :=
  match reply with
  | Err e => e
  | Ok _ => no_data yf_code
  end.

(** A reply without data: [None], or an empty frame. *)
Definition without_data (reply : result (option DataFrame)) : bool :=
  match reply with
  | Err _ => false
  | Ok None => true
  | Ok (Some df) => empty df
  end.

(** The world after one attempt that got as far as the provider call. *)
Definition after_attempt (yf_code start_date end_date : string) (w : world) : world :=
  {| attempts := attempts w; sleeps := sleeps w;
     downloads := downloads w ++ [(yf_code, start_date, end_date)];
     log := log w ++ ["[YFinance] 下载 " ++ yf_code ++ " 数据: "
                        ++ start_date ++ " → " ++ end_date] |}.

(** A provider that answers a request the same way whenever it is asked. *)
Definition stateless
  (download : nat -> string -> string -> string -> result (option DataFrame)) : Prop :=
  forall n m tickers start_date end_date,
    download n tickers start_date end_date = download m tickers start_date end_date.

Definition is_DataFetchError (e : exn) : bool :=
  match e with DataFetchError _ => true | _ => false end.

Definition failed_with_DataFetchError {A} (r : result A) : bool :=
  match r with Err e => is_DataFetchError e | Ok _ => false end.

(** The class of the exception a call ends with *)
Definition raised {A} (r : result A) : option string :=
  match r with
  | Err e => Some (class_name e)
  | Ok _ => None
  end.

End Attempts.

Module Prices.
Import Py pd YfinanceFetcher.

(** The values of a numeric column as float64 *)
Definition floats (c : column) : option (list float) :=
  match c with
  | Float64 xs => Some xs
  | Int64 xs => Some (map float_of_int xs)
  | Datetime64 _ => None
  | Object _ => None
  end.

(** The raw table as the normaliser reads it: the index turned into a column,
    the provider's names replaced. *)
Definition renamed (df : DataFrame) : option DataFrame :=
  match reset_index df with
  | Ok df0 => Some (rename RENAMES df0)
  | Err _ => None
  end.

(** The close prices of a raw table, oldest row first. *)
Definition closes_of (df : DataFrame) : option (list float) :=
  match renamed df with
  | Some df1 =>
      match getitem df1 "close" with
      | Ok c => floats c
      | Err _ => None
      end
  | None => None
  end.

(** The close prices as [pct_change] takes them: with the gaps filled from
    above when the library does that, as they are otherwise. *)
Definition as_read (pct_change_fills : bool) (closes : list float) : list float :=
  if pct_change_fills then ffill closes else closes.

(** No close price is missing. *)
Definition complete (closes : list float) : Prop :=
  Forall (fun c => PrimFloat.is_nan c = false) closes.

(** The percent change from [prev] to [x]. *)
Definition percent_change (prev x : float) : float := ((x / prev - 1) * 100)%float.

(** What row [i] of [pct_chg] has to hold for the close prices [closes]: 0.0
    in the first row, and further down the percent change from the row just
    above, with 0.0 in the place of an undefined one, rounded to two
    decimals. *)
Definition expected_pct_chg (closes : list float) (i : nat) : float :=
  match i with
  | O => 0%float
  | S j =>
      let p := percent_change (nth j closes nan) (nth i closes nan) in
      round2 (if PrimFloat.is_nan p then 0%float else p)
  end.

(** Whether row [i] has no percent change of its own. *)
Definition undefined (closes : list float) (i : nat) : bool :=
  match i with
  | O => true
  | S j => PrimFloat.is_nan (percent_change (nth j closes nan) (nth i closes nan))
  end.

(** A raw table that the normaliser can read to the end: it has rows and
    columns, its index can become a column, and after the renaming there is
    exactly one date column that converts, one numeric close column, and one
    volume column that multiplies with it. *)
Definition readable (to_datetime : column -> result column) (pct_change_fills : bool)
           (df : DataFrame) : Prop :=
  empty df = false
  /\ exists df1 date0 date close change volume amount,
       renamed df = Some df1
       /\ getitem df1 "date" = Ok date0
       /\ to_datetime date0 = Ok date
       /\ getitem df1 "close" = Ok close
       /\ pct_change pct_change_fills close = Ok change
       /\ getitem df1 "volume" = Ok volume
       /\ mul volume close = Ok amount.

(** The frame just before the projection onto the canonical columns. *)
Definition assembled (df1 : DataFrame) (date : column) (change : list float)
           (amount : column) (stock_code : string) : DataFrame :=
  setitem_str
    (setitem
       (setitem
          (setitem (setitem df1 "date" date) "pct_chg" (Float64 (times100 change)))
          "pct_chg" (Float64 (round_2 (fillna0 (times100 change)))))
       "amount" amount)
    "code" (upper stock_code).

End Prices.

Module Indices.
Import Py pd MarketAnalyzer.

(** What one configured index contributes to the list, and to the log. *)
Definition entry_of (history : string -> result DataFrame)
           (float_of_str : string -> option float) (item : string * string) : list MarketIndex :=
  match snapshot history float_of_str (fst item) (snd item) with
  | Ok (Some entry) => [entry]
  | _ => []
  end.

Definition warning_of (history : string -> result DataFrame)
           (float_of_str : string -> option float) (item : string * string) : list (string * exn) :=
  match snapshot history float_of_str (fst item) (snd item) with
  | Err e => [(snd item, e)]
  | _ => []
  end.

(** An index is kept when its [try] block runs to the end. *)
Definition kept (history : string -> result DataFrame)
           (float_of_str : string -> option float) (item : string * string) : bool :=
  match snapshot history float_of_str (fst item) (snd item) with
  | Ok (Some _) => true
  | _ => false
  end.

(** A float64 that is a number, and not an infinite one *)
Definition finite (x : float) : Prop :=
  PrimFloat.is_nan x = false /\ PrimFloat.is_infinity x = false.

(** A frame from which the snapshot can be read: one float64 column, as long
    as the index, under each of the four price labels. *)
Definition quotable (hist : DataFrame) : Prop :=
  forall label,
    In label ["Close"; "Open"; "High"; "Low"] ->
    exists xs, getitem hist label = Ok (Float64 xs) /\ List.length xs = len hist.

End Indices.

Module Examples.
Import Py pd World YfinanceFetcher.

(** The columns after [code], in the order of the canonical schema. *)
Definition CANONICAL : list string :=
  ["date"; "open"; "high"; "low"; "close"; "volume"; "pct_chg"; "amount"].

(** One daily bar. *)
Definition one_bar : DataFrame :=
  {| index_name := Some "Date";
     index := Datetime64 [1704153600000000000%Z];
     columns := [("Close", Float64 [185.5%float]); ("Volume", Int64 [1000%Z])] |}.

(** Three daily bars with the close prices 100, 110 and 99. *)
Definition three_bars : DataFrame :=
  {| index_name := Some "Date";
     index := Datetime64 [1704153600000000000; 1704240000000000000;
                          1704326400000000000]%Z;
     columns := [("Open", Float64 [99; 101; 108]%float);
                 ("Close", Float64 [100; 110; 99]%float);
                 ("Volume", Int64 [1000; 2000; 3000]%Z)] |}.

(** The same bars with the second close missing. *)
Definition gap_bars : DataFrame :=
  {| index_name := Some "Date";
     index := Datetime64 [1704153600000000000; 1704240000000000000;
                          1704326400000000000]%Z;
     columns := [("Close", Float64 [100; nan; 99]%float);
                 ("Volume", Int64 [1000; 2000; 3000]%Z)] |}.

(** Bars whose index goes by another name than [Date]. *)
Definition intraday_bars : DataFrame :=
  {| index_name := Some "Datetime";
     index := Datetime64 [1704205800000000000; 1704209400000000000]%Z;
     columns := [("Close", Float64 [100; 101]%float);
                 ("Volume", Int64 [1000; 2000]%Z)] |}.

(** A table without rows. *)
Definition no_bars : DataFrame :=
  {| index_name := Some "Date"; index := Datetime64 [];
     columns := [("Close", Float64 []); ("Volume", Int64 [])] |}.

(** Two daily bars of an index. *)
Definition two_bars (prev_close close : float) : DataFrame :=
  {| index_name := Some "Date";
     index := Datetime64 [1704153600000000000; 1704240000000000000]%Z;
     columns := [("Open", Float64 [prev_close; prev_close]);
                 ("High", Float64 [prev_close; close]);
                 ("Low", Float64 [prev_close; prev_close]);
                 ("Close", Float64 [prev_close; close]);
                 ("Volume", Int64 [0; 0]%Z)] |}.

(** Providers: one that has a table on its third call only, one whose calls
    all time out, one that always has the three bars, one that never has
    data. *)
Definition third_time_lucky (n : nat) (_ _ _ : string) : result (option DataFrame) :=
  match n with
  | 0 => Err (ProviderError "timeout")
  | 1 => Ok None
  | _ => Ok (Some one_bar)
  end.

Definition always_timeout (_ : nat) (_ _ _ : string) : result (option DataFrame) :=
  Err (ProviderError "timeout").

Definition always_three_bars (_ : nat) (_ _ _ : string) : result (option DataFrame) :=
  Ok (Some three_bars).

Definition never_any_data (_ : nat) (_ _ _ : string) : result (option DataFrame) :=
  Ok None.

(** One daily bar of an index, and a provider that has only that. *)
Definition single_bar : DataFrame :=
  {| index_name := Some "Date";
     index := Datetime64 [1704153600000000000]%Z;
     columns := [("Open", Float64 [100]%float); ("High", Float64 [102]%float);
                 ("Low", Float64 [99]%float); ("Close", Float64 [101]%float);
                 ("Volume", Int64 [0]%Z)] |}.

Definition one_day_only (_ : string) : result DataFrame := Ok single_bar.

(** A provider for which the NASDAQ request raises. *)
Definition nasdaq_down (code : string) : result DataFrame :=
  if String.eqb code "^IXIC" then Err (ProviderError "timeout")
  else Ok (two_bars 100 101).

Definition fetch_three_bars : M DataFrame :=
  fetchHistory always_three_bars CANONICAL Ok false "aapl" "2024-01-01" "2024-01-05".

End Examples.

(** ** Requests to the provider, and padding of a ticker *)

Module Requests.
Import Py pd World.

(** The line that one attempt logs before it asks the provider. *)
Definition info_line (yf_code start_date end_date : string) : string :=
  "[YFinance] 下载 " ++ yf_code ++ " 数据: " ++ start_date ++ " → " ++ end_date.

(** ASCII white space only *)
Definition blank (s : string) : Prop :=
  Forall (fun c => isspace c = true) (list_ascii_of_string s).

(** The labels that the normaliser writes itself. *)
Definition written : list string := ["date"; "pct_chg"; "amount"; "code"].

Definition is_written (l : string) : bool := existsb (String.eqb l) written.

End Requests.

(** ** The daily review *)

Module Recap.
Import Py pd MarketAnalyzer MarketReview.

(** An index whose [try] block raised, and one that was passed over because
    the provider had an empty history for it. *)
Definition raising (history : string -> result DataFrame)
           (float_of_str : string -> option float) (item : string * string) : bool :=
  match snapshot history float_of_str (fst item) (snd item) with
  | Err _ => true
  | Ok _ => false
  end.

Definition passed_over (history : string -> result DataFrame)
           (item : string * string) : bool :=
  match history (fst item) with
  | Ok hist => empty hist
  | Err _ => false
  end.

(** The figures of an entry agree with each other. *)
Definition consistent (i : MarketIndex) : Prop :=
  change i = (current i - prev_close i)%float
  /\ (PrimFloat.is_zero (prev_close i) = true -> change_pct i = 0%float)
  /\ (PrimFloat.is_zero (prev_close i) = false ->
      change_pct i = (change i / prev_close i * 100)%float).

(** What one query adds to the news. *)
Definition results_of (service : SearchService) (q : string) : list news_item :=
  match service (call_for q) with
  | Ok (Some results) => results
  | Ok None => []
  | Err _ => []
  end.

(** No backend, or one that reports itself unavailable. *)
Definition without_backend (analyzer : option Analyzer) : bool :=
  match analyzer with
  | None => true
  | Some backend =>
      match is_available backend with
      | Ok available => negb available
      | Err _ => false
      end
  end.

(** The report written without a backend. *)
Definition plain_recap (date : string) (found : list MarketIndex) : string :=
  "### US Market Recap (" ++ date ++ ")" ++ nl ++ join nl (map index_line found).

Definition logged_to_the_end {A} (r : result A) : list string :=
  match r with
  | Ok _ => [STARTED; FETCHING; FINISHED]
  | Err _ => [STARTED; FETCHING]
  end.

End Recap.

Module ReviewExamples.
Import Py pd MarketAnalyzer MarketReview Examples.

(** A search service that fails for the second query and has one item for
    each of the others. *)
Definition wall_street_down (call : search_call) : result (option (list news_item)) :=
  match focus_keywords call with
  | "Wall" :: _ => Err (ProviderError "timeout")
  | "US" :: _ => Ok (Some [Titled (Str "Stocks close higher")])
  | _ => Ok (Some [Mapping [("title", Str "Tech leads the rally")]])
  end.

(** A search service whose results have no title yet. *)
Definition untitled (_ : search_call) : result (option (list news_item)) :=
  Ok (Some [Titled (Unsliceable "NoneType")]).

(** A backend that is switched off, and one that answers with a fixed text. *)
Definition switched_off : Analyzer :=
  {| is_available := Ok false;
     _call_openai_api := fun _ _ => Err (ProviderError "unreachable") |}.

Definition canned : Analyzer :=
  {| is_available := Ok true;
     _call_openai_api := fun _ _ => Ok "## Recap" |}.

(** A provider with two bars, 100 then 101, for every index but one: no bars
    at all for the volatility index. *)
Definition no_vix (code : string) : result DataFrame :=
  if String.eqb code "^VIX" then Ok no_bars else nasdaq_down code.

(** Three daily bars of an index, with the closes 90, 100 and 101. *)
Definition three_days : DataFrame :=
  {| index_name := Some "Date";
     index := Datetime64 [1704153600000000000; 1704240000000000000;
                          1704326400000000000]%Z;
     columns := [("Open", Float64 [89; 91; 100]%float);
                 ("High", Float64 [92; 101; 102]%float);
                 ("Low", Float64 [88; 90; 99]%float);
                 ("Close", Float64 [90; 100; 101]%float);
                 ("Volume", Int64 [0; 0; 0]%Z)] |}.

(** Two bars with a previous close of zero. *)
Definition from_zero (_ : string) : result DataFrame := Ok (two_bars 0 5).

End ReviewExamples.

Module FailureExamples.
Import Py pd.

(** Bars without their close prices, and bars without their volumes. *)
Definition opens_only : DataFrame :=
  {| index_name := Some "Date";
     index := Datetime64 [1704153600000000000; 1704240000000000000]%Z;
     columns := [("Open", Float64 [99; 101]%float); ("Volume", Int64 [1000; 2000]%Z)] |}.

Definition closes_only : DataFrame :=
  {| index_name := Some "Date";
     index := Datetime64 [1704153600000000000; 1704240000000000000]%Z;
     columns := [("Close", Float64 [100; 110]%float)] |}.

(** One bar with integer prices: a volume of 2^62 at a close of 4. *)
Definition integer_prices : DataFrame :=
  {| index_name := Some "Date";
     index := Datetime64 [1704153600000000000]%Z;
     columns := [("Close", Int64 [4]%Z); ("Volume", Int64 [4611686018427387904]%Z)] |}.

(** A heap with the three bars as its one frame. *)
Definition one_table : Objects.heap :=
  {| Objects.frame_at := fun _ => Examples.three_bars; Objects.fresh := 1 |}.

(** A provider of bars whose index is not named [Date]. *)
Definition always_intraday (_ : nat) (_ _ _ : string) : result (option DataFrame) :=
  Ok (Some Examples.intraday_bars).

End FailureExamples.

(* ================================================================== *)
(** * Ticker validation *)
(* ================================================================== *)

Module Matching.
Import Py Grammar.

Lemma in_range_AZ c : re.in_range "A" "Z" c = isupper c.
Proof. reflexivity. Qed.

Lemma eat_spec j : forall s rest,
  eat "A" "Z" j s = Some rest <->
  exists p, s = p ++ rest /\ String.length p = j /\ capitals p.
Proof.
  induction j as [|j IH]; intros s rest; simpl.
  - split.
    + intros [= ->]. exists EmptyString. repeat split. constructor.
    + intros (p & -> & Hlen & _). destruct p; [reflexivity | discriminate].
  - destruct s as [|c s].
    + split; [discriminate|].
      intros (p & Hs & Hlen & _). destruct p; discriminate.
    + rewrite in_range_AZ. destruct (isupper c) eqn:Hc.
      * rewrite IH. split.
        -- intros (p & -> & Hlen & Hp). exists (String c p).
           repeat split; simpl; [congruence|]. constructor; assumption.
        -- intros (p & Hs & Hlen & Hp). destruct p as [|c' p]; [discriminate|].
           simpl in Hs. injection Hs as -> ->. exists p.
           repeat split; [simpl in Hlen; congruence|]. inversion Hp; assumption.
      * split; [discriminate|].
        intros (p & Hs & Hlen & Hp). destruct p as [|c' p]; [discriminate|].
        simpl in Hs. injection Hs as -> ->. inversion Hp; congruence.
Qed.

(** What a bounded repetition of a character range accepts. *)
Lemma accepts_rep_rng lo hi k n : forall m bos s,
  re.accepts (re.Rep (re.Rng lo hi) m n) bos s k = true <->
  exists j rest,
    m <= j <= n /\ eat lo hi j s = Some rest
    /\ k (if (j =? 0)%nat then bos else false) rest = true.
Proof.
  induction n as [|n IH]; intros m bos s.
  - simpl. rewrite andb_true_iff, Nat.eqb_eq. split.
    + intros [-> Hk]. exists 0, s. repeat split; auto.
    + intros (j & rest & Hj & He & Hk).
      assert (j = 0) as -> by lia. simpl in He. injection He as <-.
      split; [lia | exact Hk].
  - change (re.accepts (re.Rep (re.Rng lo hi) m (S n)) bos s k)
      with (match s with
            | String a s' =>
                re.in_range lo hi a
                && re.accepts (re.Rep (re.Rng lo hi) (Nat.pred m) n) false s' k
            | EmptyString => false
            end || ((m =? 0)%nat && k bos s)).
    rewrite orb_true_iff, andb_true_iff, Nat.eqb_eq. split.
    + intros [H | [-> Hk]].
      * destruct s as [|a s']; [discriminate|].
        apply andb_true_iff in H as [Ha H]. apply IH in H.
        destruct H as (j & rest & Hj & He & Hk).
        exists (S j), rest. simpl. rewrite Ha.
        repeat split; try lia; auto.
        destruct (j =? 0)%nat; exact Hk.
      * exists 0, s. repeat split; auto; lia.
    + intros (j & rest & Hj & He & Hk). destruct j as [|j].
      * right. simpl in He. injection He as <-. split; [lia | exact Hk].
      * left. simpl in He. destruct s as [|a s']; [discriminate|].
        destruct (re.in_range lo hi a) eqn:Ha; [|discriminate].
        simpl. apply IH. exists j, rest. repeat split; try lia; auto.
        simpl in Hk. destruct (j =? 0)%nat; exact Hk.
Qed.

Lemma at_end_cases tail :
  re.at_end tail = true <-> tail = EmptyString \/ tail = String newline EmptyString.
Proof.
  unfold re.at_end. destruct tail as [|c [|c' t]].
  - split; auto.
  - rewrite Ascii.eqb_eq. split.
    + intros ->. right. reflexivity.
    + intros [H | H]; [discriminate | congruence].
  - split; [discriminate | intros [H | H]; discriminate].
Qed.

Lemma append_assoc (a b c : string) : (a ++ b) ++ c = a ++ (b ++ c).
Proof. induction a as [|x a IH]; simpl; [reflexivity | now rewrite IH]. Qed.

Lemma append_empty_r (a : string) : a ++ EmptyString = a.
Proof. induction a as [|x a IH]; simpl; [reflexivity | now rewrite IH]. Qed.

(** The pattern, with everything but its two repetitions unfolded. *)
Lemma match_unfold s :
  re.match_ YfinanceFetcher.US_CODE s =
  re.accepts (re.Rep (re.Rng "A" "Z") 1 6) true s
    (fun b s' =>
       match s' with
       | String a t =>
           Ascii.eqb a "."
           && re.accepts (re.Rep (re.Rng "A" "Z") 1 2) false t
                (fun _ s'' => re.at_end s'' && true)
       | EmptyString => false
       end || (re.at_end s' && true)).
Proof. reflexivity. Qed.

(** The pattern accepts exactly a ticker followed by what [$] tolerates. *)
Lemma match_US_CODE s :
  re.match_ YfinanceFetcher.US_CODE s = true <->
  exists t tail, s = t ++ tail /\ ticker t /\ re.at_end tail = true.
Proof.
  rewrite match_unfold, accepts_rep_rng. split.
  - intros (j & rest & Hj & He & Hk).
    apply eat_spec in He as (root & -> & Hlen & Hroot).
    apply orb_true_iff in Hk as [Hk | Hk].
    + destruct rest as [|a rest]; [discriminate|].
      apply andb_true_iff in Hk as [Ha Hk]. apply Ascii.eqb_eq in Ha as ->.
      apply accepts_rep_rng in Hk as (j2 & tail & Hj2 & He2 & Hk).
      apply eat_spec in He2 as (class & -> & Hlen2 & Hclass).
      rewrite andb_true_r in Hk.
      exists (root ++ String "." class), tail. repeat split.
      * rewrite append_assoc. reflexivity.
      * exists root, (String "." class). repeat split; try lia; auto.
        right. exists class. repeat split; try lia; auto.
      * destruct (j2 =? 0)%nat; exact Hk.
    + rewrite andb_true_r in Hk.
      exists root, rest. repeat split; auto.
      exists root, EmptyString. rewrite append_empty_r.
      repeat split; try lia; auto.
  - intros (t & tail & -> & (root & suffix & -> & Hlen & Hroot & Hsuf) & Hend).
    exists (String.length root), (suffix ++ tail). repeat split; try lia.
    + apply eat_spec. exists root. rewrite append_assoc. auto.
    + replace (String.length root =? 0)%nat with false
        by (symmetry; apply Nat.eqb_neq; lia).
      apply orb_true_iff. destruct Hsuf as [-> | (class & -> & Hlen2 & Hclass)].
      * right. simpl. rewrite Hend. reflexivity.
      * left. cbn [append]. rewrite Ascii.eqb_refl. cbn [andb].
        apply accepts_rep_rng.
        exists (String.length class), tail. repeat split; try lia.
        -- apply eat_spec. exists class. auto.
        -- replace (String.length class =? 0)%nat with false
             by (symmetry; apply Nat.eqb_neq; lia).
           rewrite Hend. reflexivity.
Qed.

(** After [strip] and [upper] the text does not end in white space, so the
    newline that [$] tolerates cannot be there. *)
Lemma isspace_toupper c : isspace (toupper c) = isspace c.
Proof. destruct c as [[] [] [] [] [] [] [] []]; reflexivity. Qed.

Lemma rstrip_last s : forall t c,
  rstrip s = t ++ String c EmptyString -> isspace c = false.
Proof.
  induction s as [|a s IH]; intros t c H; simpl in H.
  - destruct t; discriminate.
  - destruct (rstrip s) as [|b r] eqn:Hr.
    + destruct (isspace a) eqn:Ha.
      * destruct t; discriminate.
      * destruct t as [|x t]; simpl in H.
        -- congruence.
        -- injection H as _ H. destruct t; discriminate.
    + destruct t as [|x t]; simpl in H.
      * discriminate.
      * injection H as _ H. eapply IH. exact H.
Qed.

Lemma upper_last s : forall t c,
  upper s = t ++ String c EmptyString ->
  exists t' c', s = t' ++ String c' EmptyString /\ c = toupper c'.
Proof.
  induction s as [|a s IH]; intros t c H; simpl in H.
  - destruct t; discriminate.
  - destruct t as [|x t]; simpl in H.
    + injection H as Ha Hs. destruct s; [|discriminate].
      exists EmptyString, a. split; [reflexivity | congruence].
    + injection H as _ H. apply IH in H as (t' & c' & -> & ->).
      exists (String a t'), c'. split; reflexivity.
Qed.

Lemma canonical_no_newline s t :
  upper (strip s) <> t ++ String newline EmptyString.
Proof.
  intros H. apply upper_last in H as (t' & c' & Hs & Hc).
  apply rstrip_last in Hs. rewrite <- isspace_toupper, <- Hc in Hs. discriminate.
Qed.

Lemma match_canonical s :
  re.match_ YfinanceFetcher.US_CODE (upper (strip s)) = true <-> ticker (upper (strip s)).
Proof.
  rewrite match_US_CODE. split.
  - intros (t & tail & Hs & Ht & Hend).
    apply at_end_cases in Hend as [-> | ->].
    + rewrite append_empty_r in Hs. congruence.
    + exfalso. exact (canonical_no_newline _ _ Hs).
  - intros Ht. exists (upper (strip s)), EmptyString.
    rewrite append_empty_r. auto.
Qed.

End Matching.

Module Validator.
Import Py Grammar Matching YfinanceFetcher.

(** C3.  For ASCII input: after trimming and upper-casing, a text that fits
    the ticker grammar is returned in that canonical form; any other text is
    refused with the fetcher's error, whose message carries the input as it
    was given. *)
Theorem validate_canonical_or_refused (stock_code : string) :
  is_ascii stock_code = true ->
  (ticker (upper (strip stock_code)) ->
   _validate_us_stock_code stock_code = Ok (upper (strip stock_code)))
  /\ (~ ticker (upper (strip stock_code)) ->
      _validate_us_stock_code stock_code
      = Err (DataFetchError ("非法美股代码: " ++ stock_code))).
Proof.
  intros _. unfold _validate_us_stock_code.
  destruct (re.match_ US_CODE (upper (strip stock_code))) eqn:Hm; split; intros H.
  - reflexivity.
  - exfalso. apply H, match_canonical, Hm.
  - apply match_canonical in H. congruence.
  - reflexivity.
Qed.

Lemma capital_inert c : isupper c = true -> inert c.
Proof.
  destruct c as [[] [] [] [] [] [] [] []]; intros H; try discriminate H;
    split; reflexivity.
Qed.

Lemma inert_fixed s :
  Forall inert (list_ascii_of_string s) -> upper (strip s) = s.
Proof.
  intros H. assert (Hl : lstrip s = s).
  { destruct s as [|c s]; [reflexivity|]. simpl. inversion H as [|? ? [Hc _] _]; subst.
    rewrite Hc. reflexivity. }
  unfold strip. rewrite Hl. clear Hl.
  assert (Hr : rstrip s = s).
  { induction s as [|c s IH]; [reflexivity|]. simpl in *.
    inversion H as [|? ? [Hc _] Hs]; subst. rewrite (IH Hs), Hc.
    destruct s; reflexivity. }
  rewrite Hr. clear Hr.
  induction s as [|c s IH]; [reflexivity|]. simpl in *.
  inversion H as [|? ? [_ Hc] Hs]; subst. rewrite (IH Hs), Hc. reflexivity.
Qed.

Lemma list_ascii_of_append a b :
  list_ascii_of_string (a ++ b)
  = (list_ascii_of_string a ++ list_ascii_of_string b)%list.
Proof. induction a as [|c a IH]; simpl; [reflexivity | now rewrite IH]. Qed.

Lemma ticker_inert t : ticker t -> Forall inert (list_ascii_of_string t).
Proof.
  intros (root & suffix & -> & _ & Hroot & Hsuf).
  rewrite list_ascii_of_append. apply Forall_app. split.
  - eapply Forall_impl; [|exact Hroot]. apply capital_inert.
  - destruct Hsuf as [-> | (class & -> & _ & Hclass)]; [constructor|].
    simpl. constructor; [split; reflexivity|].
    eapply Forall_impl; [|exact Hclass]. apply capital_inert.
Qed.

(** X1.  Validation is idempotent: the canonical form that the validator
    returns is accepted by the validator and returned unchanged. *)
Theorem validate_idempotent stock_code code :
  _validate_us_stock_code stock_code = Ok code ->
  _validate_us_stock_code code = Ok code.
Proof.
  unfold _validate_us_stock_code at 1.
  destruct (re.match_ US_CODE (upper (strip stock_code))) eqn:Hm; [|discriminate].
  intros [= <-]. apply match_canonical in Hm.
  pose proof (inert_fixed _ (ticker_inert _ Hm)) as Hfix.
  unfold _validate_us_stock_code. rewrite Hfix.
  apply match_canonical in Hm. rewrite Hm. reflexivity.
Qed.

Lemma validate_idempotent_example :
  _validate_us_stock_code "BRK.B" = Ok "BRK.B".
Proof. apply (validate_idempotent " brk.b " "BRK.B"). reflexivity. Defined.

Lemma validate_examples :
  _validate_us_stock_code " brk.b " = Ok "BRK.B"
  /\ _validate_us_stock_code "appl3"
     = Err (DataFetchError ("非法美股代码: " ++ "appl3")).
Proof.
  split.
  - apply (proj1 (validate_canonical_or_refused " brk.b " eq_refl)).
    exists "BRK", ".B". repeat split; simpl; try lia.
    + repeat constructor.
    + right. exists "B". repeat split; simpl; try lia. repeat constructor.
  - apply (proj2 (validate_canonical_or_refused "appl3" eq_refl)).
    intros H. apply match_canonical in H. vm_compute in H. discriminate.
Defined.

End Validator.

(* ================================================================== *)
(** * The retrying fetch *)
(* ================================================================== *)

Module Retrying.
Import Py pd World YfinanceFetcher Attempts Examples.

(** The wait of [wait_exponential] stays between its bounds. *)
Lemma wait_exponential_bounds multiplier min max attempt_number :
  (0 <= min <= max)%Z ->
  (min <= tenacity.wait_exponential multiplier min max attempt_number <= max)%Z.
Proof. unfold tenacity.wait_exponential. lia. Qed.

Lemma wait_first_two :
  tenacity.wait_exponential 1 2 10 1 = 2%Z
  /\ tenacity.wait_exponential 1 2 10 2 = 2%Z.
Proof. split; reflexivity. Qed.

Section Loop.

Context {A : Type}.
Variable fn : M A.
Variable wait : nat -> Z.

Lemma attempt_last attempt_number w :
  tenacity.attempt 0 attempt_number wait fn w
  = match fn (count_attempt w) with
    | (Ok a, w') => (Ok a, w')
    | (Err e, w') => (Err (RetryError e), w')
    end.
Proof. reflexivity. Qed.

Lemma attempt_again remaining attempt_number w :
  tenacity.attempt (S remaining) attempt_number wait fn w
  = match fn (count_attempt w) with
    | (Ok a, w') => (Ok a, w')
    | (Err e, w') =>
        tenacity.attempt remaining (S attempt_number) wait fn
          (sleep (wait attempt_number) w')
    end.
Proof. reflexivity. Qed.

Hypothesis fn_frame : frame fn.

(** The loop makes between one and [remaining + 1] attempts, sleeps once
    between two consecutive attempts, each time for a value of [wait], and
    issues at most one provider call per attempt. *)
Lemma attempt_bounds remaining : forall attempt_number w,
  let w' := snd (tenacity.attempt remaining attempt_number wait fn w) in
  attempts w < attempts w' <= attempts w + S remaining
  /\ (exists waits,
        sleeps w' = (sleeps w ++ waits)%list
        /\ S (List.length waits) = attempts w' - attempts w
        /\ Forall (fun t => exists j, t = wait j) waits)
  /\ List.length (downloads w') <= List.length (downloads w) + (attempts w' - attempts w).
Proof.
  induction remaining as [|remaining IH]; intros attempt_number w; simpl.
  - destruct (fn_frame (count_attempt w)) as (Ha & Hs & Hd).
    destruct (fn (count_attempt w)) as [[a|e] w1]; simpl in *;
      (split; [lia|]); (split; [|lia]);
      exists []; rewrite app_nil_r; repeat split; auto; simpl; lia.
  - destruct (fn_frame (count_attempt w)) as (Ha & Hs & Hd).
    destruct (fn (count_attempt w)) as [[a|e] w1]; simpl in *.
    + (split; [lia|]); (split; [|lia]).
      exists []; rewrite app_nil_r; repeat split; auto; simpl; lia.
    + specialize (IH (S attempt_number) (sleep (wait attempt_number) w1)).
      simpl in IH. destruct IH as (IHa & (waits & IHs & IHl & IHw) & IHd).
      split; [lia|]. split; [|lia].
      exists (wait attempt_number :: waits).
      rewrite IHs, Hs, <- app_assoc. repeat split; simpl; try lia.
      constructor; [eexists; reflexivity | assumption].
Qed.

End Loop.

Section Fetch.

Variable download : nat -> string -> string -> string -> result (option DataFrame).

Lemma once_valid stock_code yf_code start_date end_date w :
  _validate_us_stock_code stock_code = Ok yf_code ->
  _fetch_raw_data_once download stock_code start_date end_date w
  = (outcome yf_code (download (List.length (downloads w)) yf_code start_date end_date),
     after_attempt yf_code start_date end_date w).
Proof.
  intros Hv. unfold _fetch_raw_data_once, World.bind, lift. rewrite Hv.
  unfold logger_info, yf_download, outcome, after_attempt, record_download. simpl.
  destruct (download _ yf_code start_date end_date) as [[df|]|e]; try reflexivity.
  destruct (empty df); reflexivity.
Qed.

Lemma once_invalid stock_code start_date end_date e w :
  _validate_us_stock_code stock_code = Err e ->
  _fetch_raw_data_once download stock_code start_date end_date w = (Err e, w).
Proof.
  intros Hv. unfold _fetch_raw_data_once, World.bind, lift. rewrite Hv. reflexivity.
Qed.

Lemma once_frame stock_code start_date end_date :
  frame (_fetch_raw_data_once download stock_code start_date end_date).
Proof.
  intros w. destruct (_validate_us_stock_code stock_code) as [yf_code|e] eqn:Hv.
  - rewrite (once_valid _ _ _ _ _ Hv). simpl. rewrite length_app. simpl.
    repeat split; lia.
  - rewrite (once_invalid _ _ _ _ _ Hv). simpl. repeat split; lia.
Qed.

Lemma outcome_no_result yf_code reply :
  no_result reply = true -> outcome yf_code reply = Err (failure yf_code reply).
Proof.
  destruct reply as [[df|]|e]; simpl; try reflexivity. intros ->. reflexivity.
Qed.

Lemma outcome_result yf_code df :
  empty df = false -> outcome yf_code (Ok (Some df)) = Ok df.
Proof. simpl. intros ->. reflexivity. Qed.

(** C5, as the code has it.  A ticker that fails validation issues no
    provider call, but it does go through the whole retry policy: the
    retrying fetch makes three attempts, in each of which the validator
    raises, sleeps twice for 2 seconds, and raises RetryError around the
    validator's error. *)
Theorem invalid_ticker_retried stock_code start_date end_date e w :
  _validate_us_stock_code stock_code = Err e ->
  _fetch_raw_data download stock_code start_date end_date w
  = (Err (RetryError e),
     {| attempts := attempts w + 3; sleeps := sleeps w ++ [2; 2]%Z;
        downloads := downloads w; log := log w |}).
Proof.
  intros Hv. unfold _fetch_raw_data, tenacity.retry.
  change (3 - 1) with 2.
  rewrite attempt_again, (once_invalid _ _ _ _ _ Hv).
  rewrite attempt_again, (once_invalid _ _ _ _ _ Hv).
  rewrite attempt_last, (once_invalid _ _ _ _ _ Hv).
  unfold sleep, count_attempt. simpl. rewrite <- app_assoc. simpl.
  repeat f_equal. lia.
Qed.

(** C2, as the code has it.  The retrying fetch makes at most three attempts
    and at most one provider call in each; it sleeps once between two
    consecutive attempts, each time between 2 and 10 seconds; a provider
    exception, an absent result and an empty result are failures alike; two
    failures followed by a table return the table after exactly three
    attempts; and when all three attempts fail in any of these ways, the
    caller receives the retry decorator's RetryError around the failure of
    the third attempt, after exactly three attempts and two waits of 2
    seconds. *)
Theorem fetch_retry_policy stock_code start_date end_date w :
  let run := _fetch_raw_data download stock_code start_date end_date w in
  let reply yf_code i :=
    download (List.length (downloads w) + i) yf_code start_date end_date in
  attempts (snd run) <= attempts w + 3
  /\ List.length (downloads (snd run)) <= List.length (downloads w) + 3
  /\ (exists waits,
        sleeps (snd run) = (sleeps w ++ waits)%list
        /\ S (List.length waits) = attempts (snd run) - attempts w
        /\ Forall (fun t => 2 <= t <= 10)%Z waits)
  /\ (forall yf_code,
        _validate_us_stock_code stock_code = Ok yf_code ->
        no_result (reply yf_code 0) = true ->
        no_result (reply yf_code 1) = true ->
        (forall df,
           reply yf_code 2 = Ok (Some df) -> empty df = false ->
           fst run = Ok df /\ attempts (snd run) = attempts w + 3)
        /\ (no_result (reply yf_code 2) = true ->
            fst run = Err (RetryError (failure yf_code (reply yf_code 2)))
            /\ attempts (snd run) = attempts w + 3
            /\ List.length (downloads (snd run)) = List.length (downloads w) + 3
            /\ sleeps (snd run) = (sleeps w ++ [2; 2]%Z)%list)).
Proof.
  intros run reply.
  pose proof (attempt_bounds _ (tenacity.wait_exponential 1 2 10)
                (once_frame stock_code start_date end_date) 2 1 w) as H.
  cbv zeta in H. fold (_fetch_raw_data download stock_code start_date end_date w) in H.
  change (tenacity.attempt 2 1 (tenacity.wait_exponential 1 2 10)
            (_fetch_raw_data_once download stock_code start_date end_date) w)
    with run in H.
  destruct H as (Ha & (waits & Hs & Hl & Hw) & Hd).
  split; [lia|]. split; [lia|]. split.
  { exists waits. repeat split; auto.
    eapply Forall_impl; [|exact Hw]. intros t [j ->].
    apply wait_exponential_bounds. lia. }
  intros yf_code Hv H0 H1.
  assert (Hrun : run =
    let w1 := after_attempt yf_code start_date end_date (count_attempt w) in
    let w2 := after_attempt yf_code start_date end_date (count_attempt (sleep 2 w1)) in
    let w3 := after_attempt yf_code start_date end_date (count_attempt (sleep 2 w2)) in
    match outcome yf_code (reply yf_code 2) with
    | Ok df => (Ok df, w3)
    | Err e => (Err (RetryError e), w3)
    end).
  { subst run. unfold _fetch_raw_data, tenacity.retry.
    change (3 - 1) with 2.
    rewrite attempt_again, (once_valid _ _ _ _ _ Hv).
    replace (List.length (downloads (count_attempt w)))
      with (List.length (downloads w) + 0) by (simpl; lia).
    fold (reply yf_code 0). rewrite (outcome_no_result _ _ H0).
    rewrite attempt_again, (once_valid _ _ _ _ _ Hv).
    match goal with |- context [download ?n yf_code] =>
      replace n with (List.length (downloads w) + 1)
        by (simpl; rewrite length_app; simpl; lia) end.
    fold (reply yf_code 1). rewrite (outcome_no_result _ _ H1).
    rewrite attempt_last, (once_valid _ _ _ _ _ Hv).
    match goal with |- context [download ?n yf_code] =>
      replace n with (List.length (downloads w) + 2)
        by (simpl; rewrite !length_app; simpl; lia) end.
    fold (reply yf_code 2).
    change (tenacity.wait_exponential 1 2 10 1) with 2%Z.
    change (tenacity.wait_exponential 1 2 10 2) with 2%Z.
    cbv zeta.
    destruct (outcome yf_code (reply yf_code 2)); reflexivity. }
  split.
  - intros df Hr Hne. rewrite Hrun. cbv zeta. rewrite Hr, (outcome_result _ _ Hne).
    simpl. split; [reflexivity | lia].
  - intros H2. rewrite Hrun. cbv zeta. rewrite (outcome_no_result _ _ H2). simpl.
    rewrite !length_app, <- !app_assoc. simpl. repeat split; lia.
Qed.

End Fetch.

Lemma fetch_retry_policy_example :
  fst (_fetch_raw_data third_time_lucky "aapl" "2024-01-01" "2024-02-01" initial)
  = Ok one_bar
  /\ attempts (snd (_fetch_raw_data third_time_lucky "aapl" "2024-01-01" "2024-02-01"
                     initial)) = 0 + 3.
Proof.
  apply (proj1 (proj2 (proj2 (proj2
           (fetch_retry_policy third_time_lucky "aapl" "2024-01-01" "2024-02-01" initial)))
           "AAPL" eq_refl eq_refl eq_refl) one_bar eq_refl eq_refl).
Defined.

(** C2 as stated fails on a provider whose three calls time out: what the
    caller receives is a RetryError around the provider's own exception, not
    a DataFetchError, and nothing in it names the ticker. *)
Lemma exhausted_retries_surface_RetryError :
  fst (_fetch_raw_data always_timeout "AAPL" "2024-01-01" "2024-02-01" initial)
  = Err (RetryError (ProviderError "timeout"))
  /\ failed_with_DataFetchError
       (fst (_fetch_raw_data always_timeout "AAPL" "2024-01-01" "2024-02-01" initial))
     = false.
Proof. split; reflexivity. Qed.

(** At [appl3]: the refusal of the ticker is raised three times, with two
    waits of 2 seconds in between, and reaches the caller wrapped in a
    RetryError; no provider call is issued. *)
Lemma invalid_ticker_goes_through_retry :
  _fetch_raw_data always_timeout "appl3" "2024-01-01" "2024-02-01" initial
  = (Err (RetryError (DataFetchError ("非法美股代码: " ++ "appl3"))),
     {| attempts := 3; sleeps := [2; 2]%Z; downloads := []; log := [] |}).
Proof.
  exact (invalid_ticker_retried always_timeout "appl3" "2024-01-01" "2024-02-01"
           _ initial eq_refl).
Defined.

End Retrying.

(* ================================================================== *)
(** * Frames: reading after writing *)
(* ================================================================== *)

Module FrameFacts.
Import Py pd.

Lemma lookup_app {V} l (a b : list (string * V)) :
  lookup l (a ++ b) = match lookup l a with Some v => Some v | None => lookup l b end.
Proof.
  induction a as [|[k v] a IH]; simpl; [reflexivity|].
  destruct (String.eqb l k); [reflexivity | exact IH].
Qed.

Lemma lookup_filter l l0 (cols : list (string * column)) :
  lookup l (filter (labelled l0) cols)
  = if String.eqb l l0 then lookup l cols else None.
Proof.
  induction cols as [|[k v] cols IH]; simpl.
  - destruct (String.eqb l l0); reflexivity.
  - unfold labelled at 1. simpl.
    destruct (String.eqb k l0) eqn:Hk; simpl.
    + apply String.eqb_eq in Hk. subst k.
      destruct (String.eqb l l0) eqn:Hl; [reflexivity|]. rewrite IH. reflexivity.
    + rewrite IH. destruct (String.eqb l l0) eqn:Hl; [|reflexivity].
      apply String.eqb_eq in Hl. subst l0.
      rewrite String.eqb_sym, Hk. reflexivity.
Qed.

Lemma has_column_lookup df l :
  has_column df l = true <-> exists c, column_of df l = Some c.
Proof.
  unfold has_column, column_of, labels.
  induction (columns df) as [|[k v] cols IH]; simpl.
  - split; [discriminate | intros [c H]; discriminate].
  - destruct (String.eqb l k); simpl; [|exact IH].
    split; [eauto | reflexivity].
Qed.

Lemma has_column_none df l :
  has_column df l = false <-> column_of df l = None.
Proof.
  destruct (has_column df l) eqn:H.
  - apply has_column_lookup in H as [c Hc]. rewrite Hc. split; discriminate.
  - split; [|reflexivity]. intros _.
    destruct (column_of df l) eqn:Hc; [|reflexivity].
    assert (has_column df l = true) by (apply has_column_lookup; eauto). congruence.
Qed.

(** Reading a label that was just written *)
Lemma column_of_setitem df l c : column_of (setitem df l c) l = Some c.
Proof.
  unfold column_of, setitem. simpl.
  destruct (has_column df l) eqn:H.
  - unfold has_column, labels in H.
    induction (columns df) as [|[k v] cols IH]; simpl in *; [discriminate|].
    unfold labelled at 1. simpl. rewrite String.eqb_sym.
    destruct (String.eqb l k) eqn:Hk; simpl.
    + rewrite String.eqb_refl. reflexivity.
    + rewrite Hk. apply IH. exact H.
  - apply has_column_none in H. unfold column_of in H.
    rewrite lookup_app, H. simpl. rewrite String.eqb_refl. reflexivity.
Qed.

(** Writing one label leaves the others as they were *)
Lemma column_of_setitem_other df l c l' :
  String.eqb l' l = false -> column_of (setitem df l c) l' = column_of df l'.
Proof.
  intros Hne. unfold column_of, setitem. simpl.
  destruct (has_column df l).
  - induction (columns df) as [|[k v] cols IH]; simpl; [reflexivity|].
    unfold labelled at 1. simpl. destruct (String.eqb k l) eqn:Hk; simpl.
    + apply String.eqb_eq in Hk. subst k. rewrite Hne. exact IH.
    + rewrite IH. reflexivity.
  - rewrite lookup_app. simpl. rewrite Hne.
    destruct (lookup l' (columns df)); reflexivity.
Qed.

Lemma labelled_pair l k (v : column) : labelled l (k, v) = String.eqb k l.
Proof. reflexivity. Qed.

Lemma filter_setitem_other df l c l' :
  String.eqb l' l = false ->
  filter (labelled l') (columns (setitem df l c)) = filter (labelled l') (columns df).
Proof.
  intros Hne. unfold setitem. simpl. destruct (has_column df l).
  - induction (columns df) as [|[k v] cols IH]; simpl; [reflexivity|].
    rewrite (labelled_pair l k v). destruct (String.eqb k l) eqn:Hk.
    + apply String.eqb_eq in Hk. subst k.
      rewrite !labelled_pair, String.eqb_sym, Hne. exact IH.
    + rewrite !labelled_pair. destruct (String.eqb k l'); rewrite IH; reflexivity.
  - rewrite filter_app. simpl. rewrite labelled_pair.
    rewrite String.eqb_sym, Hne. apply app_nil_r.
Qed.

Lemma getitem_setitem_other df l c l' :
  String.eqb l' l = false -> getitem (setitem df l c) l' = getitem df l'.
Proof.
  intros Hne. unfold getitem. rewrite filter_setitem_other by exact Hne. reflexivity.
Qed.

(** Asking for a label that the frame does not have raises [KeyError]. *)
Lemma getitem_missing df l :
  has_column df l = false -> getitem df l = Err (KeyError l).
Proof.
  unfold has_column, getitem, labels. intros H.
  replace (filter (labelled l) (columns df)) with (@nil (string * column));
    [reflexivity|].
  induction (columns df) as [|[k v] cols IH]; [reflexivity|]. simpl in *.
  apply orb_false_iff in H as [Hk H]. rewrite labelled_pair, String.eqb_sym, Hk.
  apply IH, H.
Qed.

(** A label that [getitem] finds is the first, and only, one of that name. *)
Lemma getitem_column_of df l c : getitem df l = Ok c -> column_of df l = Some c.
Proof.
  unfold getitem, column_of. intros H.
  pose proof (lookup_filter l l (columns df)) as Hl. rewrite String.eqb_refl in Hl.
  rewrite <- Hl.
  destruct (filter (labelled l) (columns df)) as [|[k v] [|p rest]] eqn:Hf;
    try discriminate.
  injection H as ->. simpl.
  assert (Hin : In (k, c) (filter (labelled l) (columns df)))
    by (rewrite Hf; left; reflexivity).
  apply filter_In in Hin as [_ Hk]. unfold labelled in Hk. simpl in Hk.
  rewrite String.eqb_sym, Hk. reflexivity.
Qed.

(** A projection shows, under each label it keeps, the column of the frame. *)
Lemma column_of_select df ls l :
  In l ls -> column_of (select df ls) l = column_of df l.
Proof.
  unfold column_of, select. simpl. intros Hin.
  induction ls as [|l0 ls IH]; [contradiction|]. simpl.
  rewrite lookup_app, lookup_filter.
  destruct (String.eqb l l0) eqn:Hl.
  - destruct (lookup l (columns df)) eqn:Hc; [reflexivity|].
    clear IH Hin. induction ls as [|l1 ls IH]; simpl; [reflexivity|].
    rewrite lookup_app, lookup_filter, Hc.
    destruct (String.eqb l l1); exact IH.
  - apply IH. destruct Hin as [-> | Hin]; [|exact Hin].
    rewrite String.eqb_refl in Hl. discriminate.
Qed.

Lemma len_setitem df l c : len (setitem df l c) = len df.
Proof. reflexivity. Qed.

Lemma len_select df ls : len (select df ls) = len df.
Proof. reflexivity. Qed.

End FrameFacts.

(* ================================================================== *)
(** * Floating point: what a missing value does *)
(* ================================================================== *)

Module FloatFacts.
Import pd Indices.

Lemma is_nan_eq x : PrimFloat.is_nan x = true -> x = nan.
Proof.
  intros H. apply Prim2SF_inj. unfold Prim2SF at 1. rewrite H. reflexivity.
Qed.

Lemma div_nan_r x : (x / nan)%float = nan.
Proof.
  apply Prim2SF_inj. rewrite FloatAxioms.div_spec.
  change (Prim2SF nan) with S754_nan.
  unfold SF64div, SFdiv. destruct (Prim2SF x); reflexivity.
Qed.

Lemma div_nan_l y : (nan / y)%float = nan.
Proof.
  apply Prim2SF_inj. rewrite FloatAxioms.div_spec.
  change (Prim2SF nan) with S754_nan. reflexivity.
Qed.

Lemma round2_zero : round2 0 = 0%float.
Proof. reflexivity. Qed.

(** A finite number minus itself is 0.0. *)
Lemma sub_self x : finite x -> (x - x)%float = 0%float.
Proof.
  intros [Hn Hi]. apply Prim2SF_inj. rewrite FloatAxioms.sub_spec.
  change (Prim2SF 0) with (S754_zero false).
  unfold Prim2SF. rewrite Hn, Hi.
  destruct (PrimFloat.is_zero x).
  - destruct (get_sign x); reflexivity.
  - destruct (Z.frexp x) as [r e].
    destruct (shr_fexp prec emax (to_Z (normfr_mantissa r)) (e - prec) loc_Exact)
      as [shr e'].
    destruct (shr_m shr) as [|m|m]; try reflexivity.
    unfold SF64sub, SFsub. rewrite Z.sub_diag. reflexivity.
Qed.

End FloatFacts.

(* ================================================================== *)
(** * Normalisation *)
(* ================================================================== *)

Module Normalizer.
Import Py pd FrameFacts FloatFacts YfinanceFetcher Prices Examples.

Lemma zip_with_shift {B} (f : float -> float -> B) xs : forall d,
  zip_with f xs (d :: removelast xs)
  = map (fun i => f (nth i xs nan) (match i with O => d | S j => nth j xs nan end))
        (seq 0 (List.length xs)).
Proof.
  induction xs as [|x xs IH]; intros d; [reflexivity|].
  destruct xs as [|y ys]; [reflexivity|].
  change (zip_with f (x :: y :: ys) (d :: removelast (x :: y :: ys)))
    with (f x d :: zip_with f (y :: ys) (x :: removelast (y :: ys))).
  rewrite IH.
  change (seq 0 (List.length (x :: y :: ys)))
    with (0 :: seq 1 (List.length (y :: ys))).
  cbn [map nth]. f_equal.
  rewrite <- seq_shift, map_map. apply map_ext. intros [|j]; reflexivity.
Qed.

(** The column that the two assignments to [pct_chg] leave behind. *)
Lemma length_ffill_from xs : forall last,
  List.length (ffill_from last xs) = List.length xs.
Proof.
  induction xs as [|x xs IH]; intros last; simpl; [reflexivity|].
  destruct (PrimFloat.is_nan x); simpl; rewrite IH; reflexivity.
Qed.

Lemma length_as_read fills closes :
  List.length (as_read fills closes) = List.length closes.
Proof. destruct fills; [apply length_ffill_from | reflexivity]. Qed.

(** Filling changes nothing where nothing is missing. *)
Lemma ffill_from_complete xs : forall last, complete xs -> ffill_from last xs = xs.
Proof.
  induction xs as [|x xs IH]; intros last H; simpl; [reflexivity|].
  inversion H as [|? ? Hx Hxs]; subst. rewrite Hx, (IH x Hxs). reflexivity.
Qed.

Lemma as_read_same fills closes :
  fills = false \/ complete closes -> as_read fills closes = closes.
Proof.
  intros [-> | H]; [reflexivity|].
  destruct fills; [apply ffill_from_complete, H | reflexivity].
Qed.

Lemma pct_chg_rows fills closes :
  round_2 (fillna0 (times100 (pct_change_values fills closes)))
  = map (expected_pct_chg (as_read fills closes)) (seq 0 (List.length closes)).
Proof.
  rewrite <- (length_as_read fills closes).
  unfold round_2, fillna0, times100, pct_change_values.
  fold (as_read fills closes). cbv zeta. unfold shift.
  destruct (as_read fills closes) as [|x xs]; [reflexivity|].
  rewrite zip_with_shift, !map_map. apply map_ext. intros [|j].
  - rewrite div_nan_r. reflexivity.
  - reflexivity.
Qed.

Lemma pct_change_floats fills c change :
  pct_change fills c = Ok change ->
  exists closes, floats c = Some closes /\ change = pct_change_values fills closes.
Proof.
  destruct c; simpl; intros [= <-]; eauto.
Qed.

Lemma nth_error_zip_with {A B C} (f : A -> B -> C) xs : forall ys i x y,
  nth_error xs i = Some x -> nth_error ys i = Some y ->
  nth_error (zip_with f xs ys) i = Some (f x y).
Proof.
  induction xs as [|x0 xs IH]; intros ys i x y Hx Hy.
  - destruct i; discriminate.
  - destruct ys as [|y0 ys]; [destruct i; discriminate|].
    destruct i as [|i]; simpl in *.
    + congruence.
    + eapply IH; eassumption.
Qed.

Section Normalize.

Variable STANDARD_COLUMNS : list string.
Variable to_datetime : column -> result column.
Variable pct_change_fills : bool.

(** A successful run, step by step. *)
Lemma normalize_ok df stock_code out :
  _normalize_data STANDARD_COLUMNS to_datetime pct_change_fills (Some df) stock_code = Ok out ->
  exists df1 date0 date close change volume amount,
    empty df = false
    /\ renamed df = Some df1
    /\ getitem df1 "date" = Ok date0
    /\ to_datetime date0 = Ok date
    /\ getitem df1 "close" = Ok close
    /\ pct_change pct_change_fills close = Ok change
    /\ getitem df1 "volume" = Ok volume
    /\ mul volume close = Ok amount
    /\ out = select (assembled df1 date change amount stock_code)
               (filter (has_column (assembled df1 date change amount stock_code))
                  ("code" :: STANDARD_COLUMNS)).
Proof.
  unfold _normalize_data, renamed. destruct (empty df); [discriminate|].
  destruct (reset_index df) as [df0|e]; [|discriminate]. cbn [Py.bind].
  destruct (getitem (rename RENAMES df0) "date") as [date0|e] eqn:Hd; [|discriminate].
  cbn [Py.bind].
  destruct (to_datetime date0) as [date|e] eqn:Ht; [|discriminate]. cbn [Py.bind].
  rewrite !getitem_setitem_other by reflexivity.
  destruct (getitem (rename RENAMES df0) "close") as [close|e] eqn:Hc; [|discriminate].
  cbn [Py.bind].
  destruct (pct_change pct_change_fills close) as [change|e] eqn:Hp; [|discriminate].
  cbn [Py.bind].
  rewrite !getitem_setitem_other by reflexivity.
  destruct (getitem (rename RENAMES df0) "volume") as [volume|e] eqn:Hv; [|discriminate].
  cbn [Py.bind]. rewrite Hc. cbn [Py.bind].
  destruct (mul volume close) as [amount|e] eqn:Hm; [|discriminate]. cbn [Py.bind].
  intros [= <-].
  exists (rename RENAMES df0), date0, date, close, change, volume, amount.
  repeat split; auto.
Qed.

(** What the assembled frame holds under the labels written or kept. *)
Lemma assembled_pct_chg df1 date change amount stock_code :
  column_of (assembled df1 date change amount stock_code) "pct_chg"
  = Some (Float64 (round_2 (fillna0 (times100 change)))).
Proof.
  unfold assembled, setitem_str.
  rewrite !column_of_setitem_other by reflexivity. apply column_of_setitem.
Qed.

Lemma assembled_amount df1 date change amount stock_code :
  column_of (assembled df1 date change amount stock_code) "amount" = Some amount.
Proof.
  unfold assembled, setitem_str.
  rewrite !column_of_setitem_other by reflexivity. apply column_of_setitem.
Qed.

Lemma assembled_kept df1 date change amount stock_code l :
  String.eqb l "date" = false -> String.eqb l "pct_chg" = false ->
  String.eqb l "amount" = false -> String.eqb l "code" = false ->
  column_of (assembled df1 date change amount stock_code) l = column_of df1 l.
Proof.
  intros. unfold assembled, setitem_str.
  rewrite !column_of_setitem_other by assumption. reflexivity.
Qed.

(** The projection keeps every canonical label that the frame has. *)
Lemma projected df l c :
  In l ("code" :: STANDARD_COLUMNS) ->
  column_of df l = Some c ->
  column_of (select df (filter (has_column df) ("code" :: STANDARD_COLUMNS))) l = Some c.
Proof.
  intros Hin Hc. rewrite column_of_select; [exact Hc|].
  apply filter_In. split; [exact Hin|]. apply has_column_lookup. eauto.
Qed.

Lemma nth_error_map_seq {B} (f : nat -> B) n i :
  i < n -> nth_error (map f (seq 0 n)) i = Some (f i).
Proof.
  intros Hi. rewrite nth_error_map, nth_error_seq.
  destruct (Nat.ltb_spec i n); [reflexivity | lia].
Qed.

(** C1.  In every table that the normaliser returns, [pct_chg] is computed
    from the close prices of the raw table, row by row: 0.0 in the first row,
    and below it the percent change of close against the row just above,
    times 100, rounded to two decimals.  (Where the library fills gaps
    before it divides, a missing close counts as the last close above it.) *)
Theorem pct_chg_from_previous_close df stock_code out :
  _normalize_data STANDARD_COLUMNS to_datetime pct_change_fills (Some df) stock_code
  = Ok out ->
  In "pct_chg" STANDARD_COLUMNS ->
  exists closes,
    closes_of df = Some closes
    /\ column_of out "pct_chg"
       = Some (Float64 (map (expected_pct_chg (as_read pct_change_fills closes))
                          (seq 0 (List.length closes))))
    /\ (pct_change_fills = false \/ complete closes ->
        column_of out "pct_chg"
        = Some (Float64 (map (expected_pct_chg closes) (seq 0 (List.length closes))))).
Proof.
  intros Hn Hin.
  apply normalize_ok in Hn
    as (df1 & date0 & date & close & change & volume & amount
        & _ & Hr & _ & _ & Hc & Hp & _ & _ & ->).
  apply pct_change_floats in Hp as (closes & Hf & ->).
  assert (Hcol : column_of
            (select (assembled df1 date (pct_change_values pct_change_fills closes)
                       amount stock_code)
               (filter (has_column (assembled df1 date
                                      (pct_change_values pct_change_fills closes)
                                      amount stock_code))
                  ("code" :: STANDARD_COLUMNS))) "pct_chg"
          = Some (Float64 (map (expected_pct_chg (as_read pct_change_fills closes))
                             (seq 0 (List.length closes))))).
  { rewrite <- pct_chg_rows. apply projected; [right; exact Hin|].
    apply assembled_pct_chg. }
  exists closes. split; [|split].
  - unfold closes_of. rewrite Hr, Hc. exact Hf.
  - exact Hcol.
  - intros Hsame. rewrite Hcol, (as_read_same _ _ Hsame). reflexivity.
Qed.

(** C6.  An absent or empty raw table is refused with the fetcher's error
    that names the code, and a table that is returned has at least one row
    and one column. *)
Theorem empty_table_is_refused stock_code :
  _normalize_data STANDARD_COLUMNS to_datetime pct_change_fills None stock_code
  = Err (DataFetchError ("标准化失败，数据为空: " ++ stock_code))
  /\ (forall df,
        empty df = true ->
        _normalize_data STANDARD_COLUMNS to_datetime pct_change_fills (Some df) stock_code
        = Err (DataFetchError ("标准化失败，数据为空: " ++ stock_code)))
  /\ (forall df out,
        _normalize_data STANDARD_COLUMNS to_datetime pct_change_fills df stock_code = Ok out ->
        empty out = false /\ 1 <= len out).
Proof.
  split; [reflexivity|]. split.
  - intros df He. unfold _normalize_data. rewrite He. reflexivity.
  - intros [df|] out Hn; [|discriminate].
    apply normalize_ok in Hn
      as (df1 & date0 & date & close & change & volume & amount
          & He & Hr & _ & _ & _ & _ & _ & _ & ->).
    assert (Hlen : 1 <= len df).
    { unfold empty in He. apply orb_false_iff in He as [He _].
      apply Nat.eqb_neq in He. lia. }
    assert (Hlen1 : len df1 = len df).
    { unfold renamed, reset_index in Hr.
      destruct (has_column df _); [discriminate|]. injection Hr as <-.
      unfold len, rename, RangeIndex. simpl. rewrite length_map, length_seq.
      reflexivity. }
    set (full := assembled df1 date change amount stock_code).
    assert (Hout : len (select full (filter (has_column full) ("code" :: STANDARD_COLUMNS)))
                   = len df1) by reflexivity.
    split; [|lia]. unfold empty. rewrite Hout.
    apply orb_false_iff. split; [apply Nat.eqb_neq; lia|].
    assert (Hcode : column_of (select full (filter (has_column full)
                                              ("code" :: STANDARD_COLUMNS))) "code"
                    = Some (Object (repeat (upper stock_code) (len df1)))).
    { apply projected; [left; reflexivity|]. subst full.
      unfold assembled, setitem_str. rewrite column_of_setitem. reflexivity. }
    unfold column_of in Hcode.
    destruct (columns (select full (filter (has_column full)
                                      ("code" :: STANDARD_COLUMNS))));
      [discriminate | reflexivity].
Qed.

(** Within int64, the product of two non-negative integers is kept as it
    is. *)
Lemma wrap64_small z : (0 <= z < 2 ^ 63)%Z -> wrap64 z = z.
Proof.
  intros Hz. unfold wrap64. rewrite Z.mod_small; lia.
Qed.

(** C7, as the code has it.  In every table that the normaliser returns,
    [amount] is the product of the [volume] and [close] columns of that
    table, row by row and with nothing done to it afterwards, in the
    arithmetic of the columns: where one of the two is float64, the float64
    product of the volume and the close of the row (an int64 operand cast to
    float64 first); where both are int64, their product in int64, which is
    the product itself for non-negative operands as long as it stays below
    2^63, and wraps around beyond. *)
Theorem amount_is_volume_times_close df stock_code out :
  _normalize_data STANDARD_COLUMNS to_datetime pct_change_fills (Some df) stock_code = Ok out ->
  In "volume" STANDARD_COLUMNS ->
  In "close" STANDARD_COLUMNS ->
  In "amount" STANDARD_COLUMNS ->
  exists volume close amount,
    column_of out "volume" = Some volume
    /\ column_of out "close" = Some close
    /\ column_of out "amount" = Some amount
    /\ mul volume close = Ok amount
    /\ (forall volumes closes,
          floats volume = Some volumes ->
          close = Float64 closes ->
          exists amounts,
            amount = Float64 amounts
            /\ forall i v c,
                 nth_error volumes i = Some v ->
                 nth_error closes i = Some c ->
                 nth_error amounts i = Some (v * c)%float)
    /\ (forall volumes closes,
          volume = Float64 volumes ->
          close = Int64 closes ->
          exists amounts,
            amount = Float64 amounts
            /\ forall i v c,
                 nth_error volumes i = Some v ->
                 nth_error closes i = Some c ->
                 nth_error amounts i = Some (v * float_of_int c)%float)
    /\ (forall volumes closes,
          volume = Int64 volumes ->
          close = Int64 closes ->
          exists amounts,
            amount = Int64 amounts
            /\ forall i v c,
                 nth_error volumes i = Some v ->
                 nth_error closes i = Some c ->
                 nth_error amounts i = Some (wrap64 (v * c))
                 /\ ((0 <= v)%Z -> (0 <= c)%Z -> (v * c < 2 ^ 63)%Z ->
                     nth_error amounts i = Some (v * c)%Z)).
Proof.
  intros Hn Hv Hc Ha.
  apply normalize_ok in Hn
    as (df1 & date0 & date & close & change & volume & amount
        & _ & _ & _ & _ & Hclose & _ & Hvolume & Hmul & ->).
  exists volume, close, amount. repeat split.
  - apply projected; [right; exact Hv|].
    rewrite assembled_kept by reflexivity. apply getitem_column_of, Hvolume.
  - apply projected; [right; exact Hc|].
    rewrite assembled_kept by reflexivity. apply getitem_column_of, Hclose.
  - apply projected; [right; exact Ha|]. apply assembled_amount.
  - exact Hmul.
  - intros volumes closes Hf ->.
    destruct volume as [vs|vs|vs|vs]; simpl in Hf; try discriminate;
      injection Hf as <-; simpl in Hmul; injection Hmul as <-;
      eexists; (split; [reflexivity|]); intros i v c Hi Hj;
      apply nth_error_zip_with; assumption.
  - intros volumes closes -> ->. simpl in Hmul. injection Hmul as <-.
    eexists. split; [reflexivity|]. intros i v c Hi Hj.
    apply nth_error_zip_with; [exact Hi|].
    rewrite nth_error_map, Hj. reflexivity.
  - intros volumes closes -> ->. unfold mul in Hmul. injection Hmul as <-.
    eexists. split; [reflexivity|]. intros i v c Hi Hj.
    assert (Hrow : nth_error (zip_with (fun x y => wrap64 (x * y)) volumes closes) i
                   = Some (wrap64 (v * c)))
      by (apply (nth_error_zip_with (fun x y => wrap64 (x * y))); assumption).
    split; [exact Hrow|]. intros H0v H0c Hlt.
    rewrite Hrow, wrap64_small by nia. reflexivity.
Qed.

Lemma missing_close_undefined closes i :
  PrimFloat.is_nan (nth i closes nan) = true
  \/ PrimFloat.is_nan (nth (Nat.pred i) closes nan) = true ->
  undefined closes i = true.
Proof.
  destruct i as [|j]; [reflexivity|]. simpl. unfold percent_change.
  intros [H | H]; apply is_nan_eq in H; rewrite H.
  - rewrite div_nan_l. reflexivity.
  - rewrite div_nan_r. reflexivity.
Qed.

(** C10.  Every row of [pct_chg] whose percent change is undefined holds 0.0:
    the first row, and any row where the division yields no number; when
    the library does not fill gaps, these are in particular the rows whose
    own close or whose predecessor's close is missing. *)
Theorem undefined_pct_chg_is_zero df stock_code out :
  _normalize_data STANDARD_COLUMNS to_datetime pct_change_fills (Some df) stock_code
  = Ok out ->
  In "pct_chg" STANDARD_COLUMNS ->
  exists closes pct_chg,
    closes_of df = Some closes
    /\ column_of out "pct_chg" = Some (Float64 pct_chg)
    /\ List.length pct_chg = List.length closes
    /\ (forall i,
          i < List.length closes ->
          undefined (as_read pct_change_fills closes) i = true ->
          nth_error pct_chg i = Some 0%float)
    /\ (pct_change_fills = false ->
        forall i,
          i < List.length closes ->
          PrimFloat.is_nan (nth i closes nan) = true
          \/ PrimFloat.is_nan (nth (Nat.pred i) closes nan) = true ->
          nth_error pct_chg i = Some 0%float).
Proof.
  intros Hn Hin.
  apply normalize_ok in Hn
    as (df1 & date0 & date & close & change & volume & amount
        & _ & Hr & _ & _ & Hc & Hp & _ & _ & ->).
  apply pct_change_floats in Hp as (closes & Hf & ->).
  assert (Hzero : forall data i, i < List.length closes -> undefined data i = true ->
            nth_error (map (expected_pct_chg data) (seq 0 (List.length closes))) i
            = Some 0%float).
  { intros data i Hi Hu. rewrite nth_error_map_seq by exact Hi. f_equal.
    destruct i as [|j]; [reflexivity|]. simpl in Hu. simpl. rewrite Hu.
    apply round2_zero. }
  exists closes,
    (map (expected_pct_chg (as_read pct_change_fills closes))
       (seq 0 (List.length closes))).
  repeat split.
  - unfold closes_of. rewrite Hr, Hc. exact Hf.
  - rewrite <- pct_chg_rows. apply projected; [right; exact Hin|].
    apply assembled_pct_chg.
  - rewrite length_map, length_seq. reflexivity.
  - intros i. apply Hzero.
  - intros -> i Hi Hm. apply Hzero; [exact Hi|]. apply missing_close_undefined, Hm.
Qed.

(** Every column of a projection comes under one of the labels asked for. *)
Lemma labels_select df ls : Forall (fun l => In l ls) (labels (select df ls)).
Proof.
  unfold labels, select. simpl. apply Forall_forall. intros l Hl.
  apply in_map_iff in Hl as ([k c] & <- & Hin).
  apply in_flat_map in Hin as (l0 & Hl0 & Hin).
  apply filter_In in Hin as [_ Hk]. rewrite labelled_pair in Hk.
  apply String.eqb_eq in Hk. simpl. congruence.
Qed.

(** X2.  The normaliser returns a table exactly for the raw tables it can read
    to the end; for any other table it raises. *)
Theorem normalize_returns_iff df stock_code :
  (exists out,
     _normalize_data STANDARD_COLUMNS to_datetime pct_change_fills (Some df) stock_code = Ok out)
  <-> readable to_datetime pct_change_fills df.
Proof.
  split.
  - intros [out Hn].
    apply normalize_ok in Hn
      as (df1 & date0 & date & close & change & volume & amount
          & He & Hr & Hd & Ht & Hc & Hp & Hv & Hm & _).
    split; [exact He|].
    exists df1, date0, date, close, change, volume, amount. repeat split; assumption.
  - intros (He & df1 & date0 & date & close & change & volume & amount
            & Hr & Hd & Ht & Hc & Hp & Hv & Hm).
    unfold _normalize_data, renamed in *. rewrite He.
    destruct (reset_index df) as [df0|e]; [|discriminate]. injection Hr as <-.
    cbn [Py.bind]. rewrite Hd. cbn [Py.bind]. rewrite Ht. cbn [Py.bind].
    rewrite !getitem_setitem_other by reflexivity. rewrite Hc. cbn [Py.bind].
    rewrite Hp. cbn [Py.bind].
    rewrite !getitem_setitem_other by reflexivity. rewrite Hv. cbn [Py.bind].
    rewrite Hc. cbn [Py.bind]. rewrite Hm. cbn [Py.bind]. eexists. reflexivity.
Qed.

(** X3.  A table that the normaliser returns has no column outside the
    canonical ones (code, then the standard columns), and its [code] column
    holds the upper-cased code in every row. *)
Theorem canonical_columns_only df stock_code out :
  _normalize_data STANDARD_COLUMNS to_datetime pct_change_fills (Some df) stock_code = Ok out ->
  Forall (fun l => In l ("code" :: STANDARD_COLUMNS)) (labels out)
  /\ column_of out "code" = Some (Object (repeat (upper stock_code) (len out))).
Proof.
  intros Hn.
  apply normalize_ok in Hn
    as (df1 & date0 & date & close & change & volume & amount
        & _ & _ & _ & _ & _ & _ & _ & _ & ->).
  split.
  - eapply Forall_impl; [|apply labels_select].
    intros l Hl. apply filter_In in Hl as [Hl _]. exact Hl.
  - apply projected; [left; reflexivity|].
    unfold assembled, setitem_str. rewrite column_of_setitem. reflexivity.
Qed.

End Normalize.


Lemma normalized (df : DataFrame) (stock_code : string) :
  is_ok (_normalize_data CANONICAL Ok false (Some df) stock_code) = true ->
  { out | _normalize_data CANONICAL Ok false (Some df) stock_code = Ok out }.
Proof.
  destruct (_normalize_data CANONICAL Ok false (Some df) stock_code) as [out|e].
  - intros _. exists out. reflexivity.
  - discriminate.
Defined.

Lemma in_canonical l : existsb (String.eqb l) CANONICAL = true -> In l CANONICAL.
Proof.
  intros H. apply existsb_exists in H as (x & Hx & He).
  apply String.eqb_eq in He. subst x. exact Hx.
Qed.

Lemma canonical_columns_example :
  exists out,
    _normalize_data CANONICAL Ok false (Some three_bars) " aapl" = Ok out
    /\ labels out
       = ["code"; "date"; "open"; "close"; "volume"; "pct_chg"; "amount"]
    /\ column_of out "code" = Some (Object [" AAPL"; " AAPL"; " AAPL"]).
Proof.
  exists (proj1_sig (normalized three_bars " aapl" eq_refl)).
  split; [exact (proj2_sig (normalized three_bars " aapl" eq_refl))|].
  split; [reflexivity|].
  destruct (canonical_columns_only CANONICAL Ok false three_bars " aapl" _
              (proj2_sig (normalized three_bars " aapl" eq_refl))) as [_ H].
  exact H.
Defined.

Lemma pct_chg_of_three_bars :
  exists out,
    _normalize_data CANONICAL Ok false (Some three_bars) "aapl" = Ok out
    /\ column_of out "pct_chg" = Some (Float64 [0; 10; -10]%float).
Proof.
  destruct (normalized three_bars "aapl" eq_refl) as [out Hout].
  exists out. split; [exact Hout|].
  destruct (pct_chg_from_previous_close CANONICAL Ok false three_bars "aapl" out Hout
              (in_canonical "pct_chg" eq_refl)) as (closes & Hc & _ & Hp).
  vm_compute in Hc. injection Hc as <-. rewrite (Hp (or_introl eq_refl)). reflexivity.
Defined.

Lemma empty_table_example :
  _normalize_data CANONICAL Ok false (Some no_bars) "aapl"
  = Err (DataFetchError ("标准化失败，数据为空: " ++ "aapl")).
Proof.
  apply (proj1 (proj2 (empty_table_is_refused CANONICAL Ok false "aapl")) no_bars).
  reflexivity.
Defined.

Lemma amount_of_three_bars :
  exists out,
    _normalize_data CANONICAL Ok false (Some three_bars) "aapl" = Ok out
    /\ column_of out "amount" = Some (Float64 [100000; 220000; 297000]%float).
Proof.
  exists (proj1_sig (normalized three_bars "aapl" eq_refl)).
  split; [exact (proj2_sig (normalized three_bars "aapl" eq_refl))|].
  destruct (amount_is_volume_times_close CANONICAL Ok false three_bars "aapl" _
              (proj2_sig (normalized three_bars "aapl" eq_refl))
              (in_canonical "volume" eq_refl) (in_canonical "close" eq_refl)
              (in_canonical "amount" eq_refl))
    as (volume & close & amount & Hv & Hc & Ha & Hm & _).
  vm_compute in Hv. injection Hv as <-.
  vm_compute in Hc. injection Hc as <-.
  vm_compute in Hm. injection Hm as <-.
  exact Ha.
Defined.

(** C7 as stated fails on integer prices: a volume of 2^62 at a close of 4
    gives an amount of 0, where the product is 2^64. *)
Lemma amount_wraps_around :
  exists out,
    _normalize_data CANONICAL Ok false (Some FailureExamples.integer_prices) "AAPL" = Ok out
    /\ column_of out "volume" = Some (Int64 [4611686018427387904]%Z)
    /\ column_of out "close" = Some (Int64 [4]%Z)
    /\ column_of out "amount" = Some (Int64 [0]%Z)
    /\ (4611686018427387904 * 4 =? 0)%Z = false.
Proof. eexists. repeat split. Qed.

Lemma pct_chg_of_gap_bars :
  exists out,
    _normalize_data CANONICAL Ok false (Some gap_bars) "aapl" = Ok out
    /\ column_of out "pct_chg" = Some (Float64 [0; 0; 0]%float).
Proof.
  destruct (normalized gap_bars "aapl" eq_refl) as [out Hout].
  exists out. split; [exact Hout|].
  destruct (undefined_pct_chg_is_zero CANONICAL Ok false gap_bars "aapl" out Hout
              (in_canonical "pct_chg" eq_refl))
    as (closes & pct_chg & Hc & Hp & Hl & Hu & Hz).
  vm_compute in Hc. injection Hc as <-. rewrite Hp. clear Hp.
  pose proof (Hu 0 ltac:(simpl; lia) eq_refl) as H0.
  pose proof (Hz eq_refl 1 ltac:(simpl; lia) (or_introl eq_refl)) as H1.
  pose proof (Hz eq_refl 2 ltac:(simpl; lia) (or_intror eq_refl)) as H2.
  destruct pct_chg as [|a [|b [|c [|d rest]]]]; try discriminate.
  simpl in H0, H1, H2. congruence.
Defined.

(** With a library that fills gaps, the row after the gap is compared with
    the last close before the gap. *)
Lemma pct_chg_of_gap_bars_filled :
  exists out,
    _normalize_data CANONICAL Ok true (Some gap_bars) "aapl" = Ok out
    /\ column_of out "pct_chg" = Some (Float64 [0; 0; -1]%float).
Proof. eexists. split; reflexivity. Qed.

End Normalizer.

(* ================================================================== *)
(** * The normaliser and the table it is given *)
(* ================================================================== *)

Module Aliasing.
Import Py pd FrameFacts.

Section Refinement.

Variable STANDARD_COLUMNS : list string.
Variable to_datetime : column -> result column.
Variable pct_change_fills : bool.

(** A run of the normaliser on the frame behind a reference ends with the
    table, or the exception, that [_normalize_data] has for that frame, and
    changes no frame that was there before: all it writes to are the frames
    it has made itself. *)
Lemma normalize_object df stock_code h :
  (forall r, r < Objects.fresh h ->
     Objects.frame_at
       (snd (Objects._normalize_data STANDARD_COLUMNS to_datetime pct_change_fills
               (Some df) stock_code h)) r
     = Objects.frame_at h r)
  /\ Objects.contents
       (Objects._normalize_data STANDARD_COLUMNS to_datetime pct_change_fills
          (Some df) stock_code h)
     = YfinanceFetcher._normalize_data STANDARD_COLUMNS to_datetime pct_change_fills
         (Some (Objects.frame_at h df)) stock_code.
Proof.
  assert (Hother : forall r, r < Objects.fresh h -> (r =? Objects.fresh h)%nat = false)
    by (intros r Hr; apply Nat.eqb_neq; lia).
  assert (Hnext : forall r, r < Objects.fresh h -> (r =? S (Objects.fresh h))%nat = false)
    by (intros r Hr; apply Nat.eqb_neq; lia).
  unfold Objects._normalize_data, YfinanceFetcher._normalize_data, Objects.contents,
    Objects.bind, Objects.read, Objects.reset_index, Objects.rename_inplace,
    Objects.getitem, Objects.setitem, Objects.setitem_str, Objects.select,
    Objects.lift, Objects.raise, Objects.new, Objects.put.
  cbn [fst snd Objects.frame_at Objects.fresh].
  destruct (empty (Objects.frame_at h df)); [split; reflexivity|].
  destruct (reset_index (Objects.frame_at h df)) as [df0|e]; [|split; reflexivity].
  cbn [fst snd Objects.frame_at Objects.fresh Py.bind]. rewrite ?Nat.eqb_refl.
  destruct (getitem (rename YfinanceFetcher.RENAMES df0) "date") as [date0|e];
    cbn [fst snd Objects.frame_at Objects.fresh Py.bind];
    [|split; [intros r Hr; rewrite ?(Hother r Hr); reflexivity | reflexivity]].
  destruct (to_datetime date0) as [date|e];
    cbn [fst snd Objects.frame_at Objects.fresh Py.bind];
    [|split; [intros r Hr; rewrite ?(Hother r Hr); reflexivity | reflexivity]].
  rewrite ?Nat.eqb_refl.
  destruct (getitem (setitem (rename YfinanceFetcher.RENAMES df0) "date" date) "close")
    as [close|e];
    cbn [fst snd Objects.frame_at Objects.fresh Py.bind];
    [|split; [intros r Hr; rewrite ?(Hother r Hr); reflexivity | reflexivity]].
  destruct (pct_change pct_change_fills close) as [change|e];
    cbn [fst snd Objects.frame_at Objects.fresh Py.bind];
    [|split; [intros r Hr; rewrite ?(Hother r Hr); reflexivity | reflexivity]].
  rewrite ?Nat.eqb_refl.
  match goal with |- context [Py.bind (getitem ?d "volume") _] =>
    destruct (getitem d "volume") as [volume|e] end;
    cbn [fst snd Objects.frame_at Objects.fresh Py.bind];
    [|split; [intros r Hr; rewrite ?(Hother r Hr); reflexivity | reflexivity]].
  match goal with |- context [Py.bind (getitem ?d "close") _] =>
    destruct (getitem d "close") as [close'|e] end;
    cbn [fst snd Objects.frame_at Objects.fresh Py.bind];
    [|split; [intros r Hr; rewrite ?(Hother r Hr); reflexivity | reflexivity]].
  destruct (mul volume close') as [amount|e];
    cbn [fst snd Objects.frame_at Objects.fresh Py.bind];
    [|split; [intros r Hr; rewrite ?(Hother r Hr); reflexivity | reflexivity]].
  rewrite ?Nat.eqb_refl.
  split.
  - intros r Hr. rewrite (Hnext r Hr), ?(Hother r Hr). reflexivity.
  - reflexivity.
Qed.

End Refinement.

End Aliasing.

(* ================================================================== *)
(** * The pipeline: validation, retrying fetch, normalisation *)
(* ================================================================== *)

Module Pipeline.
Import Py pd World YfinanceFetcher Attempts Prices Examples.

(** Whatever the retry loop raises is a RetryError. *)
Lemma attempt_raises_RetryError {A} (fn : M A) wait remaining :
  forall attempt_number w e,
    fst (tenacity.attempt remaining attempt_number wait fn w) = Err e ->
    exists cause, e = RetryError cause.
Proof.
  induction remaining as [|remaining IH]; intros attempt_number w e; simpl;
    destruct (fn (count_attempt w)) as [[a|e'] w']; simpl; try discriminate.
  - intros [= <-]. eauto.
  - apply IH.
Qed.

(** With a function whose outcome does not depend on the world, neither does
    the outcome of the retry loop. *)
Lemma attempt_same_outcome {A} (fn : M A) wait remaining :
  (forall w1 w2, fst (fn w1) = fst (fn w2)) ->
  forall attempt_number w1 w2,
    fst (tenacity.attempt remaining attempt_number wait fn w1)
    = fst (tenacity.attempt remaining attempt_number wait fn w2).
Proof.
  intros Hfn. induction remaining as [|remaining IH]; intros attempt_number w1 w2; simpl;
    pose proof (Hfn (count_attempt w1) (count_attempt w2)) as H;
    destruct (fn (count_attempt w1)) as [[a1|e1] w1'];
    destruct (fn (count_attempt w2)) as [[a2|e2] w2']; simpl in *;
    try discriminate; try congruence.
  injection H as <-. apply IH.
Qed.

Section Facade.

Variable download : nat -> string -> string -> string -> result (option DataFrame).
Variable STANDARD_COLUMNS : list string.
Variable to_datetime : column -> result column.
Variable pct_change_fills : bool.

Lemma once_same_outcome stock_code start_date end_date :
  stateless download ->
  forall w1 w2,
    fst (_fetch_raw_data_once download stock_code start_date end_date w1)
    = fst (_fetch_raw_data_once download stock_code start_date end_date w2).
Proof.
  intros Hs w1 w2.
  destruct (_validate_us_stock_code stock_code) as [yf_code|e] eqn:Hv.
  - rewrite !(Retrying.once_valid download _ _ _ _ _ Hv). simpl.
    rewrite (Hs _ (List.length (downloads w2))). reflexivity.
  - rewrite !(Retrying.once_invalid download _ _ _ _ _ Hv). reflexivity.
Qed.

(** C4, as the code has it.  The three kinds of failure are raised as one
    class, DataFetchError, and differ in their message only: a malformed
    ticker, an attempt that gets no data, an empty raw table (a table without
    a date column ends in the table library's KeyError).  The facade stops at
    the first failure and hands it to the caller as it is: the validator's
    error before any attempt and with the world untouched, the retrying
    fetch's error (a RetryError, raised once its attempts are used up)
    without normalising anything, and otherwise the normaliser's own
    outcome. *)
Theorem failures_by_kind rawCode startDate endDate w :
  let run := fetchHistory download STANDARD_COLUMNS to_datetime pct_change_fills
               rawCode startDate endDate w in
  (forall e,
     _validate_us_stock_code rawCode = Err e ->
     e = DataFetchError ("非法美股代码: " ++ rawCode) /\ run = (Err e, w))
  /\ (forall ticker,
        _validate_us_stock_code rawCode = Ok ticker ->
        let fetched := _fetch_raw_data download ticker startDate endDate w in
        (forall e,
           fst fetched = Err e ->
           run = (Err e, snd fetched) /\ exists cause, e = RetryError cause)
        /\ (forall raw,
              fst fetched = Ok raw ->
              run = (_normalize_data STANDARD_COLUMNS to_datetime pct_change_fills (Some raw) ticker,
                     snd fetched)))
  /\ (forall stock_code yf_code start_date end_date w0,
        _validate_us_stock_code stock_code = Ok yf_code ->
        without_data (download (List.length (downloads w0)) yf_code start_date end_date)
        = true ->
        fst (_fetch_raw_data_once download stock_code start_date end_date w0)
        = Err (DataFetchError ("Yahoo Finance 无数据: " ++ yf_code)))
  /\ (forall df stock_code,
        empty df = true ->
        _normalize_data STANDARD_COLUMNS to_datetime pct_change_fills (Some df) stock_code
        = Err (DataFetchError ("标准化失败，数据为空: " ++ stock_code)))
  /\ (forall df df1 stock_code,
        empty df = false -> renamed df = Some df1 -> has_column df1 "date" = false ->
        _normalize_data STANDARD_COLUMNS to_datetime pct_change_fills (Some df) stock_code
        = Err (KeyError "date"))
  /\ (forall msg, class_name (DataFetchError msg) = "DataFetchError").
Proof.
  intros run. subst run. unfold fetchHistory, World.bind, lift.
  split; [|split; [|split; [|split; [|split]]]].
  - intros e Hv. rewrite Hv. split; [|reflexivity].
    unfold _validate_us_stock_code in Hv.
    destruct (re.match_ US_CODE _); [discriminate | congruence].
  - intros ticker Hv. rewrite Hv. cbv zeta. split.
    + intros e He.
      assert (HR : exists cause, e = RetryError cause).
      { unfold _fetch_raw_data, tenacity.retry in He.
        eapply attempt_raises_RetryError. exact He. }
      destruct (_fetch_raw_data download ticker startDate endDate w) as [[raw|e'] w'].
      * discriminate.
      * simpl in He. injection He as ->. split; [reflexivity | exact HR].
    + intros raw Hr.
      destruct (_fetch_raw_data download ticker startDate endDate w) as [[raw'|e'] w'].
      * simpl in Hr. injection Hr as ->. reflexivity.
      * discriminate.
  - intros stock_code yf_code start_date end_date w0 Hv Hd.
    rewrite (Retrying.once_valid download _ _ _ _ _ Hv). simpl.
    destruct (download _ yf_code start_date end_date) as [[df|]|e]; simpl in *;
      [rewrite Hd; reflexivity | reflexivity | discriminate].
  - intros df stock_code He. unfold _normalize_data. rewrite He. reflexivity.
  - intros df df1 stock_code He Hr Hd. unfold _normalize_data, renamed in *.
    rewrite He. destruct (reset_index df) as [df0|e]; [|discriminate].
    injection Hr as <-. cbn [Py.bind].
    rewrite (FrameFacts.getitem_missing _ _ Hd). reflexivity.
  - reflexivity.
Qed.

(** C9.  A run of the normaliser changes no table that was there before, the
    one it is given included, and what it ends with is decided by the
    contents of that table and by the code: two runs on the same table, or on
    two tables with the same contents, end alike, whatever has happened to
    the heap in between.  Against a provider that answers a request the same
    way whenever it is asked, the outcome of the retrying fetch, of
    normalising what it returns, and of [fetchHistory] is the same whatever
    has happened before: a second call with the same arguments returns the
    same table. *)
Theorem fetch_is_reproducible :
  (forall h df stock_code r,
     r < Objects.fresh h ->
     Objects.frame_at
       (snd (Objects._normalize_data STANDARD_COLUMNS to_datetime pct_change_fills
               (Some df) stock_code h)) r
     = Objects.frame_at h r)
  /\ (forall h1 h2 df1 df2 stock_code,
        Objects.frame_at h1 df1 = Objects.frame_at h2 df2 ->
        Objects.contents
          (Objects._normalize_data STANDARD_COLUMNS to_datetime pct_change_fills
             (Some df1) stock_code h1)
        = Objects.contents
            (Objects._normalize_data STANDARD_COLUMNS to_datetime pct_change_fills
               (Some df2) stock_code h2))
  /\ (forall h df stock_code,
        df < Objects.fresh h ->
        let first :=
          Objects._normalize_data STANDARD_COLUMNS to_datetime pct_change_fills
            (Some df) stock_code h in
        Objects.contents
          (Objects._normalize_data STANDARD_COLUMNS to_datetime pct_change_fills
             (Some df) stock_code (snd first))
        = Objects.contents first)
  /\ (stateless download ->
      forall stock_code start_date end_date w1 w2,
        fst (_fetch_raw_data download stock_code start_date end_date w1)
        = fst (_fetch_raw_data download stock_code start_date end_date w2))
  /\ (stateless download ->
      forall stock_code start_date end_date w1 w2,
        Py.bind (fst (_fetch_raw_data download stock_code start_date end_date w1))
          (fun raw => _normalize_data STANDARD_COLUMNS to_datetime pct_change_fills
                        (Some raw) stock_code)
        = Py.bind (fst (_fetch_raw_data download stock_code start_date end_date w2))
            (fun raw => _normalize_data STANDARD_COLUMNS to_datetime pct_change_fills
                          (Some raw) stock_code))
  /\ (stateless download ->
      forall rawCode startDate endDate w1 w2,
        fst (fetchHistory download STANDARD_COLUMNS to_datetime pct_change_fills
               rawCode startDate endDate w1)
        = fst (fetchHistory download STANDARD_COLUMNS to_datetime pct_change_fills
                 rawCode startDate endDate w2)).
Proof.
  assert (Hfetch : stateless download ->
            forall stock_code start_date end_date w1 w2,
              fst (_fetch_raw_data download stock_code start_date end_date w1)
              = fst (_fetch_raw_data download stock_code start_date end_date w2)).
  { intros Hs stock_code start_date end_date w1 w2.
    exact (attempt_same_outcome
             (_fetch_raw_data_once download stock_code start_date end_date)
             (tenacity.wait_exponential 1 2 10) 2
             (once_same_outcome stock_code start_date end_date Hs) 1 w1 w2). }
  split; [|split; [|split; [|split; [|split]]]].
  - intros h df stock_code r Hr.
    apply (Aliasing.normalize_object STANDARD_COLUMNS to_datetime pct_change_fills), Hr.
  - intros h1 h2 df1 df2 stock_code Hsame.
    rewrite !(proj2 (Aliasing.normalize_object STANDARD_COLUMNS to_datetime
                       pct_change_fills _ _ _)), Hsame.
    reflexivity.
  - intros h df stock_code Hdf. cbv zeta.
    rewrite !(proj2 (Aliasing.normalize_object STANDARD_COLUMNS to_datetime
                       pct_change_fills _ _ _)).
    rewrite (proj1 (Aliasing.normalize_object STANDARD_COLUMNS to_datetime
                      pct_change_fills df stock_code h) df Hdf).
    reflexivity.
  - exact Hfetch.
  - intros Hs stock_code start_date end_date w1 w2.
    rewrite (Hfetch Hs stock_code start_date end_date w1 w2). reflexivity.
  - intros Hs rawCode startDate endDate w1 w2.
    unfold fetchHistory, World.bind, lift.
    destruct (_validate_us_stock_code rawCode) as [ticker|e]; [|reflexivity].
    pose proof (Hfetch Hs ticker startDate endDate w1 w2) as H.
    destruct (_fetch_raw_data download ticker startDate endDate w1) as [[r1|e1] w1'];
      destruct (_fetch_raw_data download ticker startDate endDate w2) as [[r2|e2] w2'];
      simpl in H; try discriminate; injection H as <-; reflexivity.
Qed.

End Facade.

Lemma second_call_same_table :
  Objects.contents
    (Objects._normalize_data CANONICAL Ok false (Some 0) "aapl"
       (snd (Objects._normalize_data CANONICAL Ok false (Some 0) "aapl"
               FailureExamples.one_table)))
  = Objects.contents
      (Objects._normalize_data CANONICAL Ok false (Some 0) "aapl"
         FailureExamples.one_table)
  /\ is_ok (Objects.contents
              (Objects._normalize_data CANONICAL Ok false (Some 0) "aapl"
                 FailureExamples.one_table)) = true
  /\ fst (fetch_three_bars (snd (fetch_three_bars initial))) = fst (fetch_three_bars initial)
  /\ is_ok (fst (fetch_three_bars initial)) = true.
Proof.
  pose proof (fetch_is_reproducible always_three_bars CANONICAL Ok false)
    as (_ & _ & Htwice & _ & _ & Hfacade).
  split; [|split; [|split]].
  - apply (Htwice FailureExamples.one_table 0 "aapl"). apply Nat.lt_0_1.
  - reflexivity.
  - apply Hfacade. intros n m tickers start_date end_date. reflexivity.
  - reflexivity.
Defined.

(** C4 as stated fails: the refusal of a malformed ticker and the refusal of
    an empty raw table are of one and the same class, a table without a date
    column is refused with a KeyError, and a provider without data makes the
    pipeline end with a RetryError. *)
Lemma failure_kinds_not_distinct_types :
  raised (_validate_us_stock_code "appl3") = Some "DataFetchError"
  /\ raised (_normalize_data CANONICAL Ok false (Some no_bars) "AAPL")
     = Some "DataFetchError"
  /\ raised (_normalize_data CANONICAL Ok false (Some intraday_bars) "AAPL")
     = Some "KeyError"
  /\ raised (fst (fetchHistory never_any_data CANONICAL Ok false
                    "AAPL" "2024-01-01" "2024-01-05" initial))
     = Some "RetryError".
Proof. repeat split. Qed.

Lemma failures_by_kind_example :
  fetchHistory never_any_data CANONICAL Ok false "appl3" "2024-01-01" "2024-01-05"
    initial
  = (Err (DataFetchError ("非法美股代码: " ++ "appl3")), initial).
Proof.
  destruct (proj1 (failures_by_kind never_any_data CANONICAL Ok false
                     "appl3" "2024-01-01" "2024-01-05" initial)
              (DataFetchError ("非法美股代码: " ++ "appl3")) eq_refl) as [_ H].
  exact H.
Defined.

End Pipeline.

(* ================================================================== *)
(** * The market overview *)
(* ================================================================== *)

Module Overview.
Import Py pd MarketAnalyzer Indices Examples.

Section Collecting.

Variable history : string -> result DataFrame.
Variable float_of_str : string -> option float.

Lemma collect_spec items : forall indices warnings,
  collect history float_of_str items indices warnings
  = Ok (indices ++ flat_map (entry_of history float_of_str) items,
        warnings ++ flat_map (warning_of history float_of_str) items)%list.
Proof.
  induction items as [|[code name] items IH]; intros indices warnings; simpl.
  - rewrite !app_nil_r. reflexivity.
  - unfold entry_of at 1, warning_of at 1. simpl.
    destruct (snapshot history float_of_str code name) as [[entry|]|e];
      rewrite IH; simpl; rewrite <- ?app_assoc; reflexivity.
Qed.

(** The entry built for an index carries its code and its name. *)
Lemma snapshot_labels code name entry :
  snapshot history float_of_str code name = Ok (Some entry) ->
  MarketAnalyzer.code entry = code /\ MarketAnalyzer.name entry = name.
Proof.
  unfold snapshot. destruct (history code) as [hist|e]; [|discriminate].
  cbn [Py.bind]. destruct (empty hist); [discriminate|].
  repeat match goal with
         | |- context [Py.bind ?r _] => destruct r; cbn [Py.bind]; [|discriminate]
         end.
  intros [= <-]. split; reflexivity.
Qed.

Lemma entries_in_order items :
  map (fun entry => (code entry, name entry))
      (flat_map (entry_of history float_of_str) items)
  = filter (kept history float_of_str) items.
Proof.
  induction items as [|[c n] items IH]; [reflexivity|].
  simpl. rewrite map_app, IH. unfold entry_of, kept. simpl.
  destruct (snapshot history float_of_str c n) as [[entry|]|e] eqn:Hs; try reflexivity.
  destruct (snapshot_labels _ _ _ Hs) as [Hc Hn]. simpl. rewrite Hc, Hn. reflexivity.
Qed.

(** Reading a price from a row of a quotable frame *)
Lemma quotable_price hist label i :
  quotable hist -> In label ["Close"; "Open"; "High"; "Low"] -> i < len hist ->
  exists x, Py.bind (at_row hist i label) (float_ float_of_str) = Ok x.
Proof.
  intros Hq Hl Hi. destruct (Hq label Hl) as (xs & Hg & Hlen).
  unfold getitem in Hg. unfold at_row.
  destruct (filter (labelled label) (columns hist)) as [|[k c] [|p rest]];
    try discriminate.
  injection Hg as ->. simpl.
  destruct (nth_error xs i) as [x|] eqn:Hx.
  - exists x. reflexivity.
  - apply nth_error_None in Hx. lia.
Qed.

Lemma quotable_kept code name hist :
  history code = Ok hist -> empty hist = false -> quotable hist ->
  kept history float_of_str (code, name) = true.
Proof.
  intros Hh He Hq. unfold kept, snapshot. simpl. rewrite Hh. cbn [Py.bind]. rewrite He.
  assert (Hlen : 1 <= len hist).
  { unfold empty in He. apply orb_false_iff in He as [He _].
    apply Nat.eqb_neq in He. lia. }
  assert (Hprev : (if (1 <? len hist)%nat then len hist - 2 else len hist - 1) < len hist).
  { destruct (1 <? len hist)%nat; lia. }
  assert (Htoday : len hist - 1 < len hist) by lia.
  pose proof (fun l Hl => quotable_price hist l _ Hq Hl Htoday) as Ht.
  destruct (Ht "Close" ltac:(simpl; tauto)) as [price Hprice].
  destruct (quotable_price hist "Close" _ Hq ltac:(simpl; tauto) Hprev) as [prev Hp].
  destruct (Ht "Open" ltac:(simpl; tauto)) as [open Hopen].
  destruct (Ht "High" ltac:(simpl; tauto)) as [high Hhigh].
  destruct (Ht "Low" ltac:(simpl; tauto)) as [low Hlow].
  unfold Py.bind in *.
  destruct (at_row hist (len hist - 1) "Close") as [v1|]; [|discriminate].
  rewrite Hprice.
  destruct (at_row hist _ "Close") as [v2|]; [|discriminate].
  rewrite Hp.
  destruct (at_row hist (len hist - 1) "Open") as [v3|]; [|discriminate].
  rewrite Hopen.
  destruct (at_row hist (len hist - 1) "High") as [v4|]; [|discriminate].
  rewrite Hhigh.
  destruct (at_row hist (len hist - 1) "Low") as [v5|]; [|discriminate].
  rewrite Hlow. reflexivity.
Qed.

(** X4.  When the provider has a single bar for an index, that bar is both
    today and the previous day: the previous close of the snapshot is its
    current price, and for a finite price the change is 0.0. *)
Theorem single_bar_unchanged code name hist entry :
  history code = Ok hist ->
  len hist = 1 ->
  snapshot history float_of_str code name = Ok (Some entry) ->
  prev_close entry = current entry
  /\ (finite (current entry) -> change entry = 0%float).
Proof.
  intros Hh Hlen. unfold snapshot. rewrite Hh. cbn [Py.bind].
  destruct (empty hist); [discriminate|]. rewrite Hlen. simpl.
  destruct (at_row hist 0 "Close") as [v|]; [|discriminate]. cbn [Py.bind].
  destruct (float_ float_of_str v) as [price|]; [|discriminate]. cbn [Py.bind].
  repeat match goal with
         | |- context [Py.bind ?r _] => destruct r; cbn [Py.bind]; [|discriminate]
         end.
  intros [= <-]. simpl. split; [reflexivity|]. apply FloatFacts.sub_self.
Qed.

(** C8.  Whatever the provider does for the configured indices, the call
    returns a list and raises nothing; the list holds, in the configured
    order, exactly the indices whose fetch ran to the end; an index whose
    fetch raises, or returns no data, is not among them, while one whose
    fetch returns bars with the four prices is; and leaving a failed index
    out of the configuration changes nothing in the list returned. *)
Theorem failed_index_is_omitted indices_config :
  (exists indices,
     fst (_get_main_indices history float_of_str indices_config) = Ok indices
     /\ map (fun entry => (code entry, name entry)) indices
        = filter (kept history float_of_str) indices_config)
  /\ (forall code name,
        (exists e, history code = Err e)
        \/ (exists hist, history code = Ok hist /\ empty hist = true) ->
        kept history float_of_str (code, name) = false)
  /\ (forall code name hist,
        history code = Ok hist -> empty hist = false -> quotable hist ->
        kept history float_of_str (code, name) = true)
  /\ (forall before item after,
        indices_config = (before ++ item :: after)%list ->
        kept history float_of_str item = false ->
        fst (_get_main_indices history float_of_str indices_config)
        = fst (_get_main_indices history float_of_str (before ++ after))).
Proof.
  unfold _get_main_indices. split; [|split; [|split]].
  - rewrite collect_spec. simpl. eexists. split; [reflexivity|].
    apply entries_in_order.
  - intros code name [[e He] | (hist & Hh & Hempty)]; unfold kept, snapshot; simpl.
    + rewrite He. reflexivity.
    + rewrite Hh. simpl. rewrite Hempty. reflexivity.
  - apply quotable_kept.
  - intros before item after -> Hk. rewrite !collect_spec. simpl. f_equal.
    rewrite !flat_map_app. simpl. f_equal.
    replace (entry_of history float_of_str item) with (@nil MarketIndex);
      [reflexivity|].
    unfold entry_of. unfold kept in Hk.
    destruct (snapshot history float_of_str (fst item) (snd item)) as [[entry|]|e];
      [discriminate | reflexivity | reflexivity].
Qed.

End Collecting.

Lemma single_bar_example :
  exists entry,
    snapshot one_day_only (fun _ => None) "^GSPC" "S&P 500" = Ok (Some entry)
    /\ prev_close entry = 101%float /\ change entry = 0%float.
Proof.
  eexists. split; [reflexivity|].
  destruct (single_bar_unchanged one_day_only (fun _ => None) "^GSPC" "S&P 500"
              single_bar _ eq_refl eq_refl eq_refl) as [Hp Hc].
  split; [exact Hp|]. apply Hc. split; reflexivity.
Defined.

Lemma three_of_four_indices :
  exists indices,
    fst (_get_main_indices nasdaq_down (fun _ => None) MAIN_INDICES) = Ok indices
    /\ map (fun entry => (code entry, name entry)) indices
       = [("^GSPC", "S&P 500"); ("^DJI", "Dow Jones"); ("^VIX", "VIX Volatility")].
Proof.
  destruct (proj1 (failed_index_is_omitted nasdaq_down (fun _ => None) MAIN_INDICES))
    as (indices & Hr & Ho).
  exists indices. split; [exact Hr|]. rewrite Ho. reflexivity.
Defined.

End Overview.

(* ================================================================== *)
(** * The provider calls of the retrying download *)
(* ================================================================== *)

Module Downloads.
Import Py pd World YfinanceFetcher Attempts Requests Examples.

Lemma outcome_ok yf_code reply df :
  outcome yf_code reply = Ok df -> reply = Ok (Some df) /\ empty df = false.
Proof.
  destruct reply as [[df0|]|e]; simpl; try discriminate.
  destruct (empty df0) eqn:He; [discriminate|]. intros [= ->]. auto.
Qed.

Lemma outcome_err yf_code reply e :
  outcome yf_code reply = Err e -> no_result reply = true.
Proof.
  destruct reply as [[df0|]|e0]; simpl; try reflexivity.
  destruct (empty df0); [reflexivity | discriminate].
Qed.

Ltac same_world :=
  unfold after_attempt, count_attempt, sleep, info_line; simpl;
  rewrite <- ?app_assoc; simpl; rewrite ?app_nil_r;
  f_equal; lia.

Section Calls.

Variable download : nat -> string -> string -> string -> result (option DataFrame).

(** X5.  For a ticker that passes validation, every attempt of the retrying
    download logs one line and asks the provider once, always for the
    canonical ticker (never for the text as it was given) and for the
    caller's two dates; there are between one and three attempts, and a wait
    of 2 seconds between two of them; nothing else is left behind. *)
Theorem one_request_per_attempt stock_code yf_code start_date end_date w :
  _validate_us_stock_code stock_code = Ok yf_code ->
  exists n,
    1 <= n <= 3
    /\ snd (_fetch_raw_data download stock_code start_date end_date w)
       = {| attempts := attempts w + n;
            sleeps := sleeps w ++ repeat 2%Z (n - 1);
            downloads := downloads w ++ repeat (yf_code, start_date, end_date) n;
            log := log w ++ repeat (info_line yf_code start_date end_date) n |}.
Proof.
  intros Hv. unfold _fetch_raw_data, tenacity.retry. change (3 - 1) with 2.
  rewrite Retrying.attempt_again, (Retrying.once_valid _ _ _ _ _ _ Hv).
  destruct (outcome yf_code _).
  { exists 1. split; [lia|]. same_world. }
  rewrite Retrying.attempt_again, (Retrying.once_valid _ _ _ _ _ _ Hv).
  destruct (outcome yf_code _).
  { exists 2. split; [lia|]. same_world. }
  rewrite Retrying.attempt_last, (Retrying.once_valid _ _ _ _ _ _ Hv).
  exists 3. split; [lia|].
  destruct (outcome yf_code _); same_world.
Qed.

(** X6.  A table that the retrying download returns is never empty: it is
    the provider's reply to one of the first three calls for the canonical
    ticker, every call before it ended without a result, and the attempts
    stop with it.  In particular no table is returned for a ticker that
    fails validation. *)
Theorem returned_table_is_first_usable stock_code start_date end_date w df :
  fst (_fetch_raw_data download stock_code start_date end_date w) = Ok df ->
  exists yf_code i,
    _validate_us_stock_code stock_code = Ok yf_code
    /\ i < 3
    /\ download (List.length (downloads w) + i) yf_code start_date end_date
       = Ok (Some df)
    /\ empty df = false
    /\ (forall j, j < i ->
          no_result (download (List.length (downloads w) + j) yf_code
                       start_date end_date) = true)
    /\ attempts (snd (_fetch_raw_data download stock_code start_date end_date w))
       = attempts w + S i.
Proof.
  unfold _fetch_raw_data, tenacity.retry. change (3 - 1) with 2.
  destruct (_validate_us_stock_code stock_code) as [yf_code|e] eqn:Hv.
  2:{ rewrite Retrying.attempt_again, (Retrying.once_invalid _ _ _ _ _ _ Hv).
      rewrite Retrying.attempt_again, (Retrying.once_invalid _ _ _ _ _ _ Hv).
      rewrite Retrying.attempt_last, (Retrying.once_invalid _ _ _ _ _ _ Hv).
      discriminate. }
  intros Hrun. exists yf_code. revert Hrun.
  rewrite Retrying.attempt_again, (Retrying.once_valid _ _ _ _ _ _ Hv).
  replace (List.length (downloads (count_attempt w)))
    with (List.length (downloads w) + 0) by (simpl; lia).
  destruct (outcome yf_code _) as [df0|e0] eqn:H0.
  { cbn [fst snd]. intros [= ->]. apply outcome_ok in H0 as [H0 He].
    exists 0. split; [reflexivity|]. split; [lia|]. split; [exact H0|].
    split; [exact He|]. split; [intros j Hj; lia | simpl; lia]. }
  apply outcome_err in H0.
  rewrite Retrying.attempt_again, (Retrying.once_valid _ _ _ _ _ _ Hv).
  match goal with |- context [download ?n yf_code] =>
    replace n with (List.length (downloads w) + 1)
      by (simpl; rewrite length_app; simpl; lia) end.
  destruct (outcome yf_code _) as [df1|e1] eqn:H1.
  { cbn [fst snd]. intros [= ->]. apply outcome_ok in H1 as [H1 He].
    exists 1. split; [reflexivity|]. split; [lia|]. split; [exact H1|].
    split; [exact He|]. split; [|simpl; lia].
    intros [|j] Hj; [exact H0 | lia]. }
  apply outcome_err in H1.
  rewrite Retrying.attempt_last, (Retrying.once_valid _ _ _ _ _ _ Hv).
  match goal with |- context [download ?n yf_code] =>
    replace n with (List.length (downloads w) + 2)
      by (simpl; rewrite !length_app; simpl; lia) end.
  destruct (outcome yf_code _) as [df2|e2] eqn:H2; [|discriminate].
  cbn [fst snd]. intros [= ->]. apply outcome_ok in H2 as [H2 He].
  exists 2. split; [reflexivity|]. split; [lia|]. split; [exact H2|].
  split; [exact He|]. split; [|simpl; lia].
  intros [|[|j]] Hj; [exact H0 | exact H1 | lia].
Qed.

(** The retry loop does the same under two functions that do the same. *)
Lemma attempt_ext {A} (fn gn : M A) wait remaining :
  (forall w, fn w = gn w) ->
  forall attempt_number w,
    tenacity.attempt remaining attempt_number wait fn w
    = tenacity.attempt remaining attempt_number wait gn w.
Proof.
  intros H. induction remaining as [|remaining IH]; intros attempt_number w; simpl;
    rewrite H; destruct (gn (count_attempt w)) as [[a|e] w']; try reflexivity.
  apply IH.
Qed.

(** The canonical ticker passes validation as it is. *)
Lemma canonical_passes stock_code yf_code :
  _validate_us_stock_code stock_code = Ok yf_code ->
  _validate_us_stock_code yf_code = Ok yf_code.
Proof.
  unfold _validate_us_stock_code at 1.
  destruct (re.match_ US_CODE (upper (strip stock_code))) eqn:Hm; [|discriminate].
  intros [= <-]. apply Matching.match_canonical in Hm.
  pose proof (Validator.inert_fixed _ (Validator.ticker_inert _ Hm)) as Hfix.
  unfold _validate_us_stock_code. rewrite Hfix.
  apply Matching.match_canonical in Hm. rewrite Hm. reflexivity.
Qed.

(** X18.  Once a text has passed validation, it makes no difference whether
    the retrying download is given the text itself or the canonical ticker
    the validator returned for it: the result, the provider calls, the log
    and the waits are the same. *)
Theorem fetch_of_validated_ticker stock_code yf_code start_date end_date w :
  _validate_us_stock_code stock_code = Ok yf_code ->
  _fetch_raw_data download yf_code start_date end_date w
  = _fetch_raw_data download stock_code start_date end_date w.
Proof.
  intros Hv. unfold _fetch_raw_data, tenacity.retry. apply attempt_ext.
  intros w0.
  rewrite (Retrying.once_valid _ _ _ _ _ _ Hv).
  rewrite (Retrying.once_valid _ _ _ _ _ _ (canonical_passes _ _ Hv)).
  reflexivity.
Qed.

End Calls.

Lemma padded_or_canonical_same_fetch :
  _fetch_raw_data third_time_lucky "BRK.B" "2024-01-01" "2024-02-01" initial
  = _fetch_raw_data third_time_lucky " brk.b " "2024-01-01" "2024-02-01" initial.
Proof.
  exact (fetch_of_validated_ticker third_time_lucky " brk.b " "BRK.B"
           "2024-01-01" "2024-02-01" initial eq_refl).
Defined.

Lemma requests_of_third_time_lucky :
  exists n,
    1 <= n <= 3
    /\ snd (_fetch_raw_data third_time_lucky " aapl " "2024-01-01" "2024-02-01" initial)
       = {| attempts := 0 + n;
            sleeps := [] ++ repeat 2%Z (n - 1);
            downloads := [] ++ repeat ("AAPL", "2024-01-01", "2024-02-01") n;
            log := [] ++ repeat (info_line "AAPL" "2024-01-01" "2024-02-01") n |}.
Proof.
  exact (one_request_per_attempt third_time_lucky " aapl " "AAPL"
           "2024-01-01" "2024-02-01" initial eq_refl).
Defined.

Lemma third_reply_is_returned :
  exists yf_code i,
    _validate_us_stock_code "aapl" = Ok yf_code
    /\ i < 3
    /\ third_time_lucky (0 + i) yf_code "2024-01-01" "2024-02-01" = Ok (Some one_bar)
    /\ empty one_bar = false
    /\ (forall j, j < i ->
          no_result (third_time_lucky (0 + j) yf_code "2024-01-01" "2024-02-01") = true)
    /\ attempts (snd (_fetch_raw_data third_time_lucky "aapl" "2024-01-01" "2024-02-01"
                        initial))
       = 0 + S i.
Proof.
  exact (returned_table_is_first_usable third_time_lucky "aapl"
           "2024-01-01" "2024-02-01" initial one_bar eq_refl).
Defined.

End Downloads.

(* ================================================================== *)
(** * The columns that the normaliser leaves alone *)
(* ================================================================== *)

Module Columns.
Import Py pd FrameFacts YfinanceFetcher Prices Requests Examples.

Lemma len_renamed df df1 : renamed df = Some df1 -> len df1 = len df.
Proof.
  unfold renamed, reset_index.
  destruct (has_column df _); [discriminate|]. intros [= <-].
  unfold len, rename, RangeIndex. simpl. rewrite length_map, length_seq.
  reflexivity.
Qed.

(** A projection has nothing under a label that was not asked for. *)
Lemma column_of_select_other df ls l :
  ~ In l ls -> column_of (select df ls) l = None.
Proof.
  unfold column_of, select. simpl. intros Hl.
  induction ls as [|l0 ls IH]; [reflexivity|]. simpl.
  rewrite lookup_app, lookup_filter.
  destruct (String.eqb l l0) eqn:He.
  - apply String.eqb_eq in He. exfalso. apply Hl. left. congruence.
  - apply IH. intros H. apply Hl. right. exact H.
Qed.

(** The projection onto the labels that the frame has, among those wanted,
    reads like the frame under each wanted label. *)
Lemma column_of_projection df keep l :
  In l keep -> column_of (select df (filter (has_column df) keep)) l = column_of df l.
Proof.
  intros Hin. destruct (has_column df l) eqn:Hh.
  - apply column_of_select, filter_In. auto.
  - rewrite (proj1 (has_column_none df l) Hh).
    apply column_of_select_other. intros H. apply filter_In in H as [_ H]. congruence.
Qed.

Lemma is_written_false l :
  is_written l = false ->
  String.eqb l "date" = false /\ String.eqb l "pct_chg" = false
  /\ String.eqb l "amount" = false /\ String.eqb l "code" = false.
Proof.
  unfold is_written, written. simpl. intros H.
  repeat (apply orb_false_iff in H as [? H]). auto.
Qed.

Section Untouched.

Variable STANDARD_COLUMNS : list string.
Variable to_datetime : column -> result column.
Variable pct_change_fills : bool.

(** X7.  A table that the normaliser returns has as many rows as the raw
    table, and under every standard label that the normaliser does not write
    itself (so under open, high, low, close and volume) it holds the column
    of the raw table after the renaming, untouched; a standard column that
    the raw table lacks is absent from the result and not made up. *)
Theorem untouched_columns_pass_through df stock_code out :
  _normalize_data STANDARD_COLUMNS to_datetime pct_change_fills (Some df) stock_code
  = Ok out ->
  len out = len df
  /\ exists df1,
       renamed df = Some df1
       /\ forall l,
            In l STANDARD_COLUMNS -> is_written l = false ->
            column_of out l = column_of df1 l.
Proof.
  intros Hn.
  apply Normalizer.normalize_ok in Hn
    as (df1 & date0 & date & close & change & volume & amount
        & _ & Hr & _ & _ & _ & _ & _ & _ & ->).
  split.
  - rewrite len_select. unfold assembled, setitem_str. rewrite !len_setitem.
    apply len_renamed, Hr.
  - exists df1. split; [exact Hr|]. intros l Hin Hw.
    apply is_written_false in Hw as (Hd & Hp & Ha & Hc).
    rewrite column_of_projection by (right; exact Hin).
    apply Normalizer.assembled_kept; assumption.
Qed.

End Untouched.

Lemma open_of_three_bars :
  exists out,
    _normalize_data CANONICAL Ok false (Some three_bars) "aapl" = Ok out
    /\ len out = 3
    /\ column_of out "open" = Some (Float64 [99; 101; 108]%float)
    /\ column_of out "high" = None.
Proof.
  destruct (Normalizer.normalized three_bars "aapl" eq_refl) as [out Hn].
  exists out. split; [exact Hn|].
  destruct (untouched_columns_pass_through CANONICAL Ok false three_bars "aapl" out Hn)
    as (Hlen & df1 & Hr & Hcol).
  injection Hr as <-.
  split; [exact Hlen|]. split.
  - rewrite (Hcol "open"); [reflexivity | simpl; tauto | reflexivity].
  - rewrite (Hcol "high"); [reflexivity | simpl; tauto | reflexivity].
Defined.

End Columns.

(* ================================================================== *)
(** * Letter case and padding of a ticker *)
(* ================================================================== *)

Module Tolerance.
Import Py Grammar Matching YfinanceFetcher Requests.

Lemma lstrip_upper s : lstrip (upper s) = upper (lstrip s).
Proof.
  induction s as [|c s IH]; [reflexivity|]. simpl.
  rewrite isspace_toupper. destruct (isspace c); [exact IH | reflexivity].
Qed.

Lemma rstrip_upper s : rstrip (upper s) = upper (rstrip s).
Proof.
  induction s as [|c s IH]; [reflexivity|]. simpl.
  rewrite IH, isspace_toupper.
  destruct (rstrip s); simpl; [destruct (isspace c)|]; reflexivity.
Qed.

Lemma strip_upper s : strip (upper s) = upper (strip s).
Proof. unfold strip. rewrite lstrip_upper. apply rstrip_upper. Qed.

Lemma lstrip_blank left s : blank left -> lstrip (left ++ s) = lstrip s.
Proof.
  unfold blank. induction left as [|c left IH]; [reflexivity|]. simpl.
  intros H. inversion H as [|? ? Hc Hl]; subst. rewrite Hc. apply IH, Hl.
Qed.

Lemma rstrip_all_blank right : blank right -> rstrip right = EmptyString.
Proof.
  unfold blank. induction right as [|c right IH]; [reflexivity|]. simpl.
  intros H. inversion H as [|? ? Hc Hr]; subst. rewrite (IH Hr), Hc. reflexivity.
Qed.

Lemma lstrip_all_blank right : blank right -> lstrip right = EmptyString.
Proof.
  unfold blank. induction right as [|c right IH]; [reflexivity|]. simpl.
  intros H. inversion H as [|? ? Hc Hr]; subst. rewrite Hc. apply IH, Hr.
Qed.

Lemma rstrip_blank s right : blank right -> rstrip (s ++ right) = rstrip s.
Proof.
  intros H. induction s as [|c s IH]; simpl.
  - apply rstrip_all_blank, H.
  - rewrite IH. reflexivity.
Qed.

Lemma strip_blank_right s right : blank right -> strip (s ++ right) = strip s.
Proof.
  intros H. unfold strip. induction s as [|c s IH]; simpl.
  - rewrite (lstrip_all_blank _ H). reflexivity.
  - destruct (isspace c); [exact IH|].
    change (String c (s ++ right)) with (String c s ++ right).
    apply rstrip_blank, H.
Qed.

Lemma strip_blank left s right :
  blank left -> blank right -> strip (left ++ s ++ right) = strip s.
Proof.
  intros Hl Hr. unfold strip. rewrite (lstrip_blank _ _ Hl).
  apply strip_blank_right, Hr.
Qed.

(** X8.  On ASCII text, validation looks at the letters only: ASCII white
    space around the ticker and the case of the letters a to z make no
    difference to whether it is accepted, nor to the canonical ticker
    returned. *)
Theorem validate_ignores_case_and_padding s s' left right code :
  is_ascii s = true -> is_ascii s' = true ->
  blank left -> blank right -> upper s' = upper s ->
  _validate_us_stock_code (left ++ s' ++ right) = Ok code
  <-> _validate_us_stock_code s = Ok code.
Proof.
  intros _ _ Hl Hr Hs.
  assert (Hsame : upper (strip (left ++ s' ++ right)) = upper (strip s)).
  { rewrite (strip_blank _ _ _ Hl Hr), <- !strip_upper, Hs. reflexivity. }
  unfold _validate_us_stock_code. rewrite Hsame.
  destruct (re.match_ US_CODE (upper (strip s))); split; intros H;
    solve [exact H | discriminate H].
Qed.

Lemma padded_lower_case_ticker :
  _validate_us_stock_code ("  " ++ "brk.b" ++ " ") = Ok "BRK.B".
Proof.
  apply (proj2 (validate_ignores_case_and_padding "BRK.B" "brk.b" "  " " " "BRK.B"
                  eq_refl eq_refl
                  ltac:(repeat constructor) ltac:(repeat constructor) eq_refl)).
  reflexivity.
Defined.

End Tolerance.

(* ================================================================== *)
(** * The index snapshots: what is logged, and what an entry holds *)
(* ================================================================== *)

Module Snapshots.
Import Py pd MarketAnalyzer Indices Recap Examples ReviewExamples.

Section Accounting.

Variable history : string -> result DataFrame.
Variable float_of_str : string -> option float.

(** The [try] block ends in [continue] exactly for an empty history. *)
Lemma snapshot_none code name :
  snapshot history float_of_str code name = Ok None
  <-> passed_over history (code, name) = true.
Proof.
  unfold snapshot, passed_over. simpl.
  destruct (history code) as [hist|e]; cbn [Py.bind]; [|split; discriminate].
  destruct (empty hist); [split; reflexivity|].
  split; [|discriminate].
  repeat match goal with
         | |- context [Py.bind ?r _] => destruct r; cbn [Py.bind]; [|discriminate]
         end.
  discriminate.
Qed.

Lemma one_of_three item :
  List.length (entry_of history float_of_str item)
  + List.length (warning_of history float_of_str item)
  + (if passed_over history item then 1 else 0) = 1.
Proof.
  destruct item as [code name].
  pose proof (snapshot_none code name) as Hn.
  unfold entry_of, warning_of. simpl.
  destruct (snapshot history float_of_str code name) as [[entry|]|e].
  - destruct (passed_over history (code, name)); [|reflexivity].
    destruct Hn as [_ Hn]. discriminate (Hn eq_refl).
  - rewrite (proj1 Hn eq_refl). reflexivity.
  - destruct (passed_over history (code, name)); [|reflexivity].
    destruct Hn as [_ Hn]. discriminate (Hn eq_refl).
Qed.

(** X9.  Every configured index is accounted for exactly once: it yields an
    entry, or a warning, or it is passed over in silence because the provider
    had an empty history for it.  The warnings are those of the indices whose
    fetch raised, in the configured order, each under the name of its index
    and with the exception caught. *)
Theorem every_index_accounted_for indices_config :
  exists found warned,
    _get_main_indices history float_of_str indices_config = (Ok found, warned)
    /\ warned = flat_map (warning_of history float_of_str) indices_config
    /\ map fst warned = map snd (filter (raising history float_of_str) indices_config)
    /\ List.length found + List.length warned
       + List.length (filter (passed_over history) indices_config)
       = List.length indices_config.
Proof.
  unfold _get_main_indices. rewrite Overview.collect_spec. simpl.
  eexists. eexists. split; [reflexivity|]. split; [reflexivity|]. split.
  - induction indices_config as [|[code name] items IH]; [reflexivity|].
    simpl. rewrite map_app, IH. unfold warning_of, raising. simpl.
    destruct (snapshot history float_of_str code name) as [[entry|]|e]; reflexivity.
  - induction indices_config as [|item items IH]; [reflexivity|].
    simpl. rewrite !length_app.
    pose proof (one_of_three item) as H1.
    destruct (passed_over history item); simpl; lia.
Qed.

Lemma snapshot_consistent code name entry :
  snapshot history float_of_str code name = Ok (Some entry) -> consistent entry.
Proof.
  unfold snapshot. destruct (history code) as [hist|e]; [|discriminate].
  cbn [Py.bind]. destruct (empty hist); [discriminate|].
  repeat match goal with
         | |- context [Py.bind ?r _] => destruct r; cbn [Py.bind]; [|discriminate]
         end.
  intros [= <-]. unfold consistent. simpl.
  split; [reflexivity|]. split; intros ->; reflexivity.
Qed.

(** X10.  The figures of every entry returned agree with each other: the
    change is the current price less the previous close, and the percent
    change is that change over the previous close, times 100, unless the
    previous close is zero, when it is 0.0 and nothing is divided. *)
Theorem entries_are_consistent indices_config found :
  fst (_get_main_indices history float_of_str indices_config) = Ok found ->
  Forall consistent found.
Proof.
  unfold _get_main_indices. rewrite Overview.collect_spec. simpl.
  intros [= <-]. apply Forall_forall. intros entry Hin.
  apply in_flat_map in Hin as ([code name] & _ & Hin).
  unfold entry_of in Hin. simpl in Hin.
  destruct (snapshot history float_of_str code name) as [[entry'|]|e] eqn:Hs;
    try contradiction.
  destruct Hin as [<- | []]. eapply snapshot_consistent, Hs.
Qed.

(** X11.  With two bars or more, the entry is read off the last two: the
    current price is the close of the last bar and the previous close that of
    the bar before it, whatever lies further back. *)
Theorem last_two_bars_are_read code name hist closes entry :
  history code = Ok hist ->
  2 <= len hist ->
  getitem hist "Close" = Ok (Float64 closes) ->
  snapshot history float_of_str code name = Ok (Some entry) ->
  nth_error closes (len hist - 1) = Some (current entry)
  /\ nth_error closes (len hist - 2) = Some (prev_close entry).
Proof.
  intros Hh Hlen Hg. unfold snapshot. rewrite Hh. cbn [Py.bind].
  destruct (empty hist); [discriminate|].
  replace (1 <? len hist)%nat with true by (symmetry; apply Nat.ltb_lt; lia).
  assert (Hrow : forall i, at_row hist i "Close"
                           = match nth_error closes i with
                             | Some x => Ok (SFloat x)
                             | None => Err (KeyError "Close")
                             end).
  { intros i. unfold at_row. unfold getitem in Hg.
    destruct (filter (labelled "Close") (columns hist)) as [|[k c] [|p rest]];
      try discriminate.
    injection Hg as ->. simpl. destruct (nth_error closes i); reflexivity. }
  rewrite !Hrow.
  destruct (nth_error closes (len hist - 1)) as [price|]; [|discriminate].
  cbn [Py.bind float_].
  destruct (nth_error closes (len hist - 2)) as [prev|]; [|discriminate].
  cbn [Py.bind float_].
  repeat match goal with
         | |- context [Py.bind ?r _] => destruct r; cbn [Py.bind]; [|discriminate]
         end.
  intros [= <-]. split; reflexivity.
Qed.

End Accounting.

Lemma three_entries_one_warning :
  exists found warned,
    _get_main_indices nasdaq_down (fun _ => None) MAIN_INDICES = (Ok found, warned)
    /\ warned = [("NASDAQ Composite", ProviderError "timeout")]
    /\ List.length found = 3.
Proof.
  destruct (every_index_accounted_for nasdaq_down (fun _ => None) MAIN_INDICES)
    as (found & warned & Hrun & Hw & _ & Hcount).
  exists found, warned. split; [exact Hrun|]. split; [exact Hw|].
  rewrite Hw in Hcount. simpl in Hcount. lia.
Defined.

Lemma zero_previous_close :
  exists entry,
    fst (_get_main_indices from_zero (fun _ => None) [("^GSPC", "S&P 500")]) = Ok [entry]
    /\ prev_close entry = 0%float
    /\ change_pct entry = 0%float.
Proof.
  eexists. split; [reflexivity|]. split; [reflexivity|].
  pose proof (entries_are_consistent from_zero (fun _ => None)
                [("^GSPC", "S&P 500")] _ eq_refl) as H.
  inversion H as [|entry rest (_ & Hz & _) _]; subst.
  apply Hz. reflexivity.
Defined.

Lemma last_two_of_three_days :
  exists entry,
    snapshot (fun _ => Ok three_days) (fun _ => None) "^GSPC" "S&P 500" = Ok (Some entry)
    /\ nth_error [90; 100; 101]%float (3 - 1) = Some (current entry)
    /\ nth_error [90; 100; 101]%float (3 - 2) = Some (prev_close entry).
Proof.
  eexists. split; [reflexivity|].
  exact (last_two_bars_are_read (fun _ => Ok three_days) (fun _ => None)
           "^GSPC" "S&P 500" three_days [90; 100; 101]%float _
           eq_refl (le_S 2 2 (le_n 2)) eq_refl eq_refl).
Defined.

End Snapshots.

(* ================================================================== *)
(** * News search *)
(* ================================================================== *)

Module News.
Import Py pd MarketAnalyzer MarketReview Recap ReviewExamples.

Lemma gather_spec service queries : forall news calls,
  gather service queries news calls
  = ((news ++ flat_map (results_of service) queries)%list,
     (calls ++ map call_for queries)%list).
Proof.
  induction queries as [|q queries IH]; intros news calls; simpl.
  - rewrite !app_nil_r. reflexivity.
  - unfold results_of at 1.
    destruct (service (call_for q)) as [[[|item results]|]|e];
      rewrite IH; rewrite <- ?app_assoc; simpl; rewrite ?app_nil_r; reflexivity.
Qed.

(** X12.  With a search service, every query is searched, once and in the
    order given, whatever the earlier searches did: a search that raises, or
    comes back without results, neither stops the loop nor loses what the
    other searches found, and the news are the results of the successful
    searches one after the other.  Every search is for the market as a
    whole, asks for three results, and carries the words of its query as
    keywords.  Without a search service nothing is searched. *)
Theorem every_query_is_searched service queries :
  search_market_news_for (Some service) queries
  = (flat_map (results_of service) queries, map call_for queries)
  /\ Forall (fun call =>
               stock_code call = "market" /\ stock_name call = "US Market"
               /\ max_results call = 3%Z)
       (snd (search_market_news_for (Some service) queries))
  /\ map focus_keywords (snd (search_market_news_for (Some service) queries))
     = map split queries
  /\ search_market_news_for None queries = ([], []).
Proof.
  unfold search_market_news_for. rewrite gather_spec. simpl.
  split; [reflexivity|]. split; [|split; [|reflexivity]].
  - apply Forall_forall. intros call Hin. apply in_map_iff in Hin as (q & <- & _).
    repeat split.
  - rewrite map_map. reflexivity.
Qed.

Lemma characters_append (a b : string) :
  characters (a ++ b) = characters a + characters b.
Proof.
  induction a as [|c a IH]; simpl; [reflexivity|].
  rewrite IH. destruct (continuation c); reflexivity.
Qed.

Lemma characters_take s : forall n, characters (take n s) <= n.
Proof.
  induction s as [|c s IH]; intros n; simpl; [lia|].
  destruct (continuation c) eqn:Hc; simpl; rewrite ?Hc.
  - apply IH.
  - destruct n as [|n]; simpl; rewrite ?Hc; [lia|]. specialize (IH n). lia.
Qed.

Lemma characters_join k parts :
  Forall (fun p => characters p <= k) parts ->
  characters (join nl parts) <= List.length parts * (k + 1) - 1.
Proof.
  induction parts as [|p parts IH]; intros H; [simpl; lia|].
  inversion H as [|? ? Hp Hparts]; subst. specialize (IH Hparts).
  destruct parts as [|p' parts].
  - simpl. lia.
  - change (join nl (p :: p' :: parts)) with (p ++ nl ++ join nl (p' :: parts)).
    rewrite !characters_append.
    change (characters nl) with 1.
    change (List.length (p :: p' :: parts)) with (S (List.length (p' :: parts))).
    change (List.length (p' :: parts)) with (S (List.length parts)) in *.
    nia.
Qed.

Lemma characters_news_line n line : news_line n = Ok line -> characters line <= 60.
Proof.
  assert (Hslice : forall v, slice_60 v = Ok line -> characters line <= 60).
  { intros [s|type_name]; simpl; [|discriminate].
    intros [= <-]. apply characters_take. }
  destruct n; unfold news_line; [apply Hslice | apply Hslice | discriminate].
Qed.

Lemma news_lines_bounded news : forall lines,
  news_lines news = Ok lines ->
  Forall (fun p => characters p <= 60) lines /\ List.length lines = List.length news.
Proof.
  induction news as [|n news IH]; intros lines; simpl.
  - intros [= <-]. split; [constructor | reflexivity].
  - destruct (news_line n) as [line|e] eqn:Hn; [|discriminate]. cbn [Py.bind].
    destruct (news_lines news) as [rest|e]; [|discriminate]. cbn [Py.bind].
    intros [= <-]. destruct (IH rest eq_refl) as [Hall Hlen].
    split; [|simpl; congruence].
    constructor; [eapply characters_news_line, Hn | exact Hall].
Qed.

(** X13.  However many items the search found and however long their titles
    are, the news that go into the prompt are those of the first five items,
    cut to 60 characters each: the news section is never longer than 304
    characters, and items after the fifth change nothing, not even when they
    cannot be read. *)
Theorem news_section_is_bounded news more :
  (forall text, news_text news = Ok text -> characters text <= 304)
  /\ (5 <= List.length news -> news_text (news ++ more) = news_text news).
Proof.
  split.
  - unfold news_text. intros text.
    destruct (news_lines (firstn 5 news)) as [lines|e] eqn:Hl; [|discriminate].
    cbn [Py.bind]. intros [= <-].
    apply news_lines_bounded in Hl as [Hall Hlen].
    rewrite length_firstn in Hlen.
    pose proof (characters_join 60 _ Hall) as H. nia.
  - intros Hlen. unfold news_text. rewrite firstn_app.
    replace (5 - List.length news) with 0 by lia.
    simpl. rewrite app_nil_r. reflexivity.
Qed.

Lemma one_failed_search_of_three :
  search_market_news (Some wall_street_down)
  = ([Titled (Str "Stocks close higher");
      Mapping [("title", Str "Tech leads the rally")]],
     [call_for "US stock market news today"; call_for "Wall Street market recap";
      call_for "NASDAQ S&P500 market analysis"]).
Proof.
  exact (proj1 (every_query_is_searched wall_street_down QUERIES)).
Defined.

Lemma long_title_is_cut :
  news_text [Titled (Str (pd.repeat_str "股市" 40))] = Ok (pd.repeat_str "股市" 30)
  /\ characters (pd.repeat_str "股市" 30) <= 304
  /\ news_text (repeat (Titled (Str "Stocks close higher")) 5
                ++ [Titled (Unsliceable "NoneType")])
     = news_text (repeat (Titled (Str "Stocks close higher")) 5).
Proof.
  split; [reflexivity|]. split.
  - apply (proj1 (news_section_is_bounded
                    [Titled (Str (pd.repeat_str "股市" 40))] [])).
    reflexivity.
  - exact (proj2 (news_section_is_bounded
                    (repeat (Titled (Str "Stocks close higher")) 5)
                    [Titled (Unsliceable "NoneType")]) (le_n 5)).
Defined.

End News.

(* ================================================================== *)
(** * The daily review *)
(* ================================================================== *)

Module DailyReview.
Import Py pd MarketAnalyzer MarketReview Recap Examples ReviewExamples.

Section Running.

Variable history : string -> result DataFrame.
Variable float_of_str : string -> option float.
Variable today : string.
Variable search_service : option SearchService.

Lemma overview_spec indices_config :
  get_market_overview history float_of_str today indices_config
  = (Ok {| date := today;
           indices := flat_map (Indices.entry_of history float_of_str) indices_config |},
     flat_map (Indices.warning_of history float_of_str) indices_config).
Proof.
  unfold get_market_overview, _get_main_indices.
  rewrite Overview.collect_spec. reflexivity.
Qed.

Lemma main_indices_spec indices_config :
  _get_main_indices history float_of_str indices_config
  = (Ok (flat_map (Indices.entry_of history float_of_str) indices_config),
     flat_map (Indices.warning_of history float_of_str) indices_config).
Proof. unfold _get_main_indices. rewrite Overview.collect_spec. reflexivity. Qed.

(** X14.  Without a usable backend (none configured, or one that reports
    itself unavailable) no prompt is sent, and nothing the provider does for
    the indices reaches the caller.  The searches are made all the same, and
    the titles of the first five news are read although the plain recap does
    not use them: when they can be read, the daily review returns the plain
    recap, a heading with today's date and one line for each index that could
    be fetched, in the configured order; when one of them cannot, its
    exception is what the daily review raises. *)
Theorem review_without_backend analyzer indices_config :
  without_backend analyzer = true ->
  exists found,
    fst (_get_main_indices history float_of_str indices_config) = Ok found
    /\ let run :=
         run_daily_review history float_of_str today search_service analyzer
           indices_config in
       warnings (snd run) = snd (_get_main_indices history float_of_str indices_config)
       /\ searches (snd run) = snd (search_market_news search_service)
       /\ prompts (snd run) = []
       /\ match news_text (fst (search_market_news search_service)) with
          | Ok _ =>
              fst run = Ok (plain_recap today found)
              /\ infos (snd run) = [STARTED; FETCHING; FINISHED]
          | Err e =>
              fst run = Err e /\ infos (snd run) = [STARTED; FETCHING]
          end.
Proof.
  intros Hb. unfold run_daily_review.
  rewrite overview_spec, main_indices_spec. cbn [fst snd].
  eexists. split; [reflexivity|]. cbv zeta.
  destruct (search_market_news search_service) as [news asked]. cbn [fst snd].
  unfold generate_market_review, without_backend in *.
  destruct (news_text news) as [text|e]; [|repeat split].
  destruct analyzer as [backend|]; [|repeat split].
  destruct (is_available backend) as [[|]|e]; try discriminate Hb. repeat split.
Qed.

(** X15.  With a backend that reports itself available, and news whose
    titles can be read, the daily review sends the backend exactly one
    prompt, built from today's date, the indices that could be fetched and
    the news found, with the temperature 0.7 and at most 1500 output tokens;
    what the backend returns is the report, and what it raises reaches the
    caller, with no plain recap in its place.  When one of the first five
    news cannot be read, its exception is raised and no prompt is sent.  The
    closing line is logged only when a report was returned. *)
Theorem review_with_backend backend indices_config :
  is_available backend = Ok true ->
  exists found,
    fst (_get_main_indices history float_of_str indices_config) = Ok found
    /\ let run :=
         run_daily_review history float_of_str today search_service (Some backend)
           indices_config in
       searches (snd run) = snd (search_market_news search_service)
       /\ infos (snd run) = logged_to_the_end (fst run)
       /\ match news_text (fst (search_market_news search_service)) with
          | Ok news_text =>
              let prompt := prompt_of {| date := today; indices := found |} news_text in
              fst run = _call_openai_api backend prompt OPTIONS
              /\ prompts (snd run) = [(prompt, OPTIONS)]
          | Err e => fst run = Err e /\ prompts (snd run) = []
          end.
Proof.
  intros Ha. unfold run_daily_review.
  rewrite overview_spec, main_indices_spec. cbn [fst snd].
  eexists. split; [reflexivity|]. cbv zeta.
  destruct (search_market_news search_service) as [news asked]. cbn [fst snd].
  unfold generate_market_review.
  destruct (news_text news) as [text|e]; [|repeat split].
  rewrite Ha.
  destruct (_call_openai_api backend _ OPTIONS); repeat split.
Qed.

End Running.

Lemma plain_recap_of_two_indices :
  fst (run_daily_review no_vix (fun _ => None) "2024-01-03" (Some wall_street_down)
         (Some switched_off) MAIN_INDICES)
  = Ok ("### US Market Recap (2024-01-03)" ++ nl
        ++ "- S&P 500: 101.00 (+1.00%)" ++ nl
        ++ "- Dow Jones: 101.00 (+1.00%)")
  /\ prompts (snd (run_daily_review no_vix (fun _ => None) "2024-01-03"
                     (Some wall_street_down) (Some switched_off) MAIN_INDICES)) = []
  /\ fst (run_daily_review no_vix (fun _ => None) "2024-01-03" (Some untitled)
            None MAIN_INDICES)
     = Err (TypeError "'NoneType' object is not subscriptable").
Proof.
  destruct (review_without_backend no_vix (fun _ => None) "2024-01-03"
              (Some wall_street_down) (Some switched_off) MAIN_INDICES eq_refl)
    as (found & Hfound & _ & _ & Hprompts & Hrun).
  destruct (review_without_backend no_vix (fun _ => None) "2024-01-03"
              (Some untitled) None MAIN_INDICES eq_refl)
    as (found' & _ & _ & _ & _ & Hraised).
  split; [|split].
  - vm_compute in Hfound. injection Hfound as <-.
    revert Hrun.
    destruct (news_text (fst (search_market_news (Some wall_street_down))))
      as [text|e] eqn:Hnews; [|vm_compute in Hnews; discriminate Hnews].
    intros [Hrun _]. rewrite Hrun. vm_compute. reflexivity.
  - exact Hprompts.
  - revert Hraised.
    destruct (news_text (fst (search_market_news (Some untitled))))
      as [text|e] eqn:Hnews; [vm_compute in Hnews; discriminate Hnews|].
    vm_compute in Hnews. injection Hnews as <-. intros [Hraised _]. exact Hraised.
Defined.

Lemma canned_report :
  exists found,
    fst (_get_main_indices no_vix (fun _ => None) MAIN_INDICES) = Ok found
    /\ fst (run_daily_review no_vix (fun _ => None) "2024-01-03" (Some wall_street_down)
              (Some canned) MAIN_INDICES)
       = Ok "## Recap"
    /\ prompts (snd (run_daily_review no_vix (fun _ => None) "2024-01-03"
                       (Some wall_street_down) (Some canned) MAIN_INDICES))
       = [(prompt_of {| date := "2024-01-03"; indices := found |}
             ("Stocks close higher" ++ nl ++ "Tech leads the rally"),
           OPTIONS)]
    /\ infos (snd (run_daily_review no_vix (fun _ => None) "2024-01-03"
                     (Some wall_street_down) (Some canned) MAIN_INDICES))
       = [STARTED; FETCHING; FINISHED]
    /\ fst (run_daily_review no_vix (fun _ => None) "2024-01-03" (Some untitled)
              (Some canned) MAIN_INDICES)
       = Err (TypeError "'NoneType' object is not subscriptable").
Proof.
  destruct (review_with_backend no_vix (fun _ => None) "2024-01-03"
              (Some wall_street_down) canned MAIN_INDICES eq_refl)
    as (found & Hfound & _ & Hinfos & Hrun).
  destruct (review_with_backend no_vix (fun _ => None) "2024-01-03"
              (Some untitled) canned MAIN_INDICES eq_refl)
    as (found' & _ & _ & _ & Hraised).
  exists found. split; [exact Hfound|].
  revert Hrun.
  destruct (news_text (fst (search_market_news (Some wall_street_down))))
    as [text|e] eqn:Hnews; [|vm_compute in Hnews; discriminate Hnews].
  cbv zeta. intros [Hreport Hprompts].
  change (_call_openai_api canned
            (prompt_of {| date := "2024-01-03"; indices := found |} text) OPTIONS)
    with (@Ok string "## Recap") in Hreport.
  split; [exact Hreport|]. split; [|split].
  - rewrite Hprompts.
    assert (Htext : Ok text = Ok ("Stocks close higher" ++ nl ++ "Tech leads the rally"))
      by (rewrite <- Hnews; reflexivity).
    injection Htext as ->. reflexivity.
  - rewrite Hinfos, Hreport. reflexivity.
  - revert Hraised.
    destruct (news_text (fst (search_market_news (Some untitled))))
      as [text'|e] eqn:Hnews'; [vm_compute in Hnews'; discriminate Hnews'|].
    vm_compute in Hnews'. injection Hnews' as <-. intros [Hraised _]. exact Hraised.
Defined.

End DailyReview.

(* ================================================================== *)
(** * What the normaliser raises *)
(* ================================================================== *)

Module Refusals.
Import Py pd World FrameFacts YfinanceFetcher Attempts Prices Examples FailureExamples.

(** The retry loop returns only what the function under it returns. *)
Lemma attempt_returns {A} (fn : M A) (P : A -> Prop) wait remaining :
  (forall w a, fst (fn w) = Ok a -> P a) ->
  forall attempt_number w a,
    fst (tenacity.attempt remaining attempt_number wait fn w) = Ok a -> P a.
Proof.
  intros Hfn. induction remaining as [|remaining IH]; intros attempt_number w a; simpl;
    pose proof (Hfn (count_attempt w)) as H;
    destruct (fn (count_attempt w)) as [[a'|e'] w']; simpl in *.
  - intros [= <-]. apply H. reflexivity.
  - discriminate.
  - intros [= <-]. apply H. reflexivity.
  - apply IH.
Qed.

Lemma fetched_not_empty download stock_code start_date end_date w raw :
  fst (_fetch_raw_data download stock_code start_date end_date w) = Ok raw ->
  empty raw = false.
Proof.
  unfold _fetch_raw_data, tenacity.retry.
  apply (attempt_returns _ (fun raw => empty raw = false)).
  clear w raw. intros w raw.
  destruct (_validate_us_stock_code stock_code) as [yf_code|e] eqn:Hv.
  - rewrite (Retrying.once_valid download _ _ _ _ _ Hv). cbn [fst].
    intros H. apply Downloads.outcome_ok in H as [_ H]. exact H.
  - rewrite (Retrying.once_invalid download _ _ _ _ _ Hv). discriminate.
Qed.

Lemma getitem_error df l e :
  getitem df l = Err e -> is_DataFetchError e = false.
Proof.
  unfold getitem.
  destruct (filter (labelled l) (columns df)) as [|[k c] [|p rest]];
    intros [= <-]; reflexivity.
Qed.

Lemma reset_index_error df e :
  reset_index df = Err e -> is_DataFetchError e = false.
Proof.
  unfold reset_index. destruct (has_column df _); intros [= <-]. reflexivity.
Qed.

Lemma pct_change_error fills c e :
  pct_change fills c = Err e -> is_DataFetchError e = false.
Proof. destruct c; intros [= <-]; reflexivity. Qed.

Lemma mul_error a b e : mul a b = Err e -> is_DataFetchError e = false.
Proof. destruct a, b; intros [= <-]; reflexivity. Qed.

Section Raising.

Variable STANDARD_COLUMNS : list string.
Variable to_datetime : column -> result column.
Variable pct_change_fills : bool.

(** X16.  A raw table with rows whose date column converts, but which lacks
    its close prices, is refused with the table library's KeyError for
    [close]; one that has numeric close prices and lacks its volumes, with
    the KeyError for [volume].  Neither is reported as the fetcher's own
    error. *)
Theorem missing_price_column_raises_KeyError df df1 date0 date stock_code :
  empty df = false ->
  renamed df = Some df1 ->
  getitem df1 "date" = Ok date0 ->
  to_datetime date0 = Ok date ->
  (has_column df1 "close" = false ->
   _normalize_data STANDARD_COLUMNS to_datetime pct_change_fills (Some df) stock_code
   = Err (KeyError "close"))
  /\ (forall close change,
        getitem df1 "close" = Ok close ->
        pct_change pct_change_fills close = Ok change ->
        has_column df1 "volume" = false ->
        _normalize_data STANDARD_COLUMNS to_datetime pct_change_fills (Some df) stock_code
        = Err (KeyError "volume")).
Proof.
  intros He Hr Hd Ht. unfold _normalize_data, renamed in *. rewrite He.
  destruct (reset_index df) as [df0|e]; [|discriminate]. injection Hr as <-.
  cbn [Py.bind]. rewrite Hd. cbn [Py.bind]. rewrite Ht. cbn [Py.bind].
  rewrite !getitem_setitem_other by reflexivity. split.
  - intros Hc. rewrite (getitem_missing _ _ Hc). reflexivity.
  - intros close change Hc Hp Hv. rewrite Hc. cbn [Py.bind]. rewrite Hp. cbn [Py.bind].
    rewrite !getitem_setitem_other by reflexivity.
    rewrite (getitem_missing _ _ Hv). reflexivity.
Qed.

(** X17.  A table that the retrying download has returned is never refused
    by the normaliser as empty: as long as the date conversion does not
    raise the fetcher's error itself, whatever the normaliser raises for
    such a table is an error of the table library and not a
    DataFetchError. *)
Theorem fetched_table_is_not_refused_as_empty
        download stock_code start_date end_date w raw code e :
  (forall c e', to_datetime c = Err e' -> is_DataFetchError e' = false) ->
  fst (_fetch_raw_data download stock_code start_date end_date w) = Ok raw ->
  _normalize_data STANDARD_COLUMNS to_datetime pct_change_fills (Some raw) code = Err e ->
  is_DataFetchError e = false.
Proof.
  intros Hconv Hf. apply fetched_not_empty in Hf.
  unfold _normalize_data. rewrite Hf.
  destruct (reset_index raw) as [df0|e0] eqn:H0; cbn [Py.bind];
    [|intros [= <-]; eapply reset_index_error, H0].
  destruct (getitem (rename RENAMES df0) "date") as [date0|e1] eqn:H1; cbn [Py.bind];
    [|intros [= <-]; eapply getitem_error, H1].
  destruct (to_datetime date0) as [date|e2] eqn:H2; cbn [Py.bind];
    [|intros [= <-]; eapply Hconv, H2].
  rewrite !getitem_setitem_other by reflexivity.
  destruct (getitem (rename RENAMES df0) "close") as [close|e3] eqn:H3; cbn [Py.bind];
    [|intros [= <-]; eapply getitem_error, H3].
  destruct (pct_change pct_change_fills close) as [change|e4] eqn:H4; cbn [Py.bind];
    [|intros [= <-]; eapply pct_change_error, H4].
  rewrite !getitem_setitem_other by reflexivity.
  destruct (getitem (rename RENAMES df0) "volume") as [volume|e5] eqn:H5; cbn [Py.bind];
    [|intros [= <-]; eapply getitem_error, H5].
  rewrite H3. cbn [Py.bind].
  destruct (mul volume close) as [amount|e7] eqn:H7; cbn [Py.bind];
    [discriminate | intros [= <-]; eapply mul_error, H7].
Qed.

End Raising.

Lemma missing_close_and_missing_volume :
  _normalize_data CANONICAL Ok false (Some opens_only) "AAPL" = Err (KeyError "close")
  /\ _normalize_data CANONICAL Ok false (Some closes_only) "AAPL" = Err (KeyError "volume").
Proof.
  split.
  - exact (proj1 (missing_price_column_raises_KeyError CANONICAL Ok false
                    opens_only _ _ _ "AAPL" eq_refl eq_refl eq_refl eq_refl) eq_refl).
  - exact (proj2 (missing_price_column_raises_KeyError CANONICAL Ok false
                    closes_only _ _ _ "AAPL" eq_refl eq_refl eq_refl eq_refl)
             _ _ eq_refl eq_refl eq_refl).
Defined.

Lemma intraday_table_ends_in_KeyError :
  _normalize_data CANONICAL Ok false (Some intraday_bars) "AAPL" = Err (KeyError "date")
  /\ is_DataFetchError (KeyError "date") = false.
Proof.
  split; [reflexivity|].
  apply (fetched_table_is_not_refused_as_empty CANONICAL Ok false
           always_intraday "AAPL" "2024-01-02" "2024-01-03" initial intraday_bars "AAPL").
  - intros c e' H. discriminate H.
  - reflexivity.
  - reflexivity.
Defined.

End Refusals.
